(** * Verification of the regime classifier and notification policy of
    log_tasmota ([main.py]).

    Shallow embedding of the Python code:
    - a [datetime.datetime] is a [Z] count of microseconds since
      [datetime.datetime.min] (0001-01-01T00:00:00); a [timedelta] is a [Z]
      count of microseconds;
    - power readings and energy totals (Python floats, only compared and
      averaged) are rationals [Q];
    - the persisted JSON document is the inductive [json], a Python dict is an
      association list in insertion order;
    - a notification send is recorded in the list of attempted sends and its
      acknowledgment ([result.get("ok")]) is given by a function [ack]. *)

From Stdlib Require Import ZArith QArith List Ascii String Bool Lia DecimalString.
From Stdlib Require Import Qabs.
Import ListNotations.

Open Scope Z_scope.

(* ------------------------------------------------------------------------- *)
(** ** Times and durations *)

Definition us_per_second : Z := 1000000.

(** [datetime.datetime.min]. *)
Definition datetime_min : Z := 0.

(** [t.year == 1]: year 1 is not a leap year. *)
Definition year_is_1 (t : Z) : bool := t <? 365 * 86400 * us_per_second.

(* ------------------------------------------------------------------------- *)
(** ** The typed view of the configuration ([class Config]) *)

(** One [stats] sub-object ([StatsDict]) with its [notification] map
    ([server-mail], [todo], [jo_private]: 0 do not send, 1 muted, 2 alert). *)
Record stats := mkStats {
  time : Z;
  last_sent : Z;
  power_total : Q;
  n_server_mail : Z;
  n_todo : Z;
  n_jo_private : Z
}.

(** [Config] with its properties.  [re_remind_counter] is [None] while the
    key is absent from the dict: the defaults of [load_config] do not contain
    it, and reading it then raises [KeyError]. *)
Record config := mkConfig {
  off_power : Q;                  (* min_off_power *)
  max_idle_power : Q;
  re_remind : bool;
  re_remind_counter : option Z;
  min_runtime : Z;                (* timedelta(minutes=min_runtime_minutes) *)
  min_data_window : Z;            (* timedelta(minutes=min_data_window_minutes) *)
  st_on : stats;
  st_off : stats;
  st_done : stats;
  st_running : stats;
  device_name : option string
}.

Definition set_time (t : Z) (s : stats) : stats :=
  mkStats t (last_sent s) (power_total s) (n_server_mail s) (n_todo s) (n_jo_private s).
Definition set_last_sent (t : Z) (s : stats) : stats :=
  mkStats (time s) t (power_total s) (n_server_mail s) (n_todo s) (n_jo_private s).
Definition set_power_total (p : Q) (s : stats) : stats :=
  mkStats (time s) (last_sent s) p (n_server_mail s) (n_todo s) (n_jo_private s).

Definition upd_on (f : stats -> stats) (c : config) : config :=
  mkConfig (off_power c) (max_idle_power c) (re_remind c) (re_remind_counter c)
    (min_runtime c) (min_data_window c) (f (st_on c)) (st_off c) (st_done c)
    (st_running c) (device_name c).
Definition upd_off (f : stats -> stats) (c : config) : config :=
  mkConfig (off_power c) (max_idle_power c) (re_remind c) (re_remind_counter c)
    (min_runtime c) (min_data_window c) (st_on c) (f (st_off c)) (st_done c)
    (st_running c) (device_name c).
Definition upd_done (f : stats -> stats) (c : config) : config :=
  mkConfig (off_power c) (max_idle_power c) (re_remind c) (re_remind_counter c)
    (min_runtime c) (min_data_window c) (st_on c) (st_off c) (f (st_done c))
    (st_running c) (device_name c).
Definition upd_running (f : stats -> stats) (c : config) : config :=
  mkConfig (off_power c) (max_idle_power c) (re_remind c) (re_remind_counter c)
    (min_runtime c) (min_data_window c) (st_on c) (st_off c) (st_done c)
    (f (st_running c)) (device_name c).
Definition set_counter (n : Z) (c : config) : config :=
  mkConfig (off_power c) (max_idle_power c) (re_remind c) (Some n)
    (min_runtime c) (min_data_window c) (st_on c) (st_off c) (st_done c)
    (st_running c) (device_name c).

(* ------------------------------------------------------------------------- *)
(** ** The regime classifier of [check_status] (lines 843-865) *)

Inductive regime := Starting | Running | Off | Done | FallThrough.

Fixpoint insert_sorted (x : Q) (l : list Q) : list Q :=
  match l with
  | [] => [x]
  | y :: r => if Qle_bool x y then x :: y :: r else y :: insert_sorted x r
  end.

Fixpoint sort_q (l : list Q) : list Q :=
  match l with
  | [] => []
  | x :: r => insert_sorted x (sort_q r)
  end.

(** [statistics.median]: middle element of the sorted data, or the mean of
    the two middle elements. *)
Definition median (l : list Q) : Q :=
  let d := sort_q l in
  let n := List.length d in
  if Nat.odd n then List.nth (n / 2) d 0%Q
  else ((List.nth (n / 2 - 1) d 0%Q + List.nth (n / 2) d 0%Q) / 2)%Q.

(** [all(power <= min_off_power for power in power_list[:-1])
       and power_list[-1] > min_off_power] *)
Definition is_starting (off : Q) (power_list : list Q) : bool :=
  forallb (fun p => Qle_bool p off) (removelast power_list)
  && negb (Qle_bool (last power_list 0%Q) off).

(** The classification chain of [check_status]; [None] is the [ValueError]
    of [min(power_list)] on an empty window. *)
Definition classify (off idle : Q) (power_list : list Q) : option regime :=
  match power_list with
  | [] => None
  | _ =>
    Some (if is_starting off power_list then Starting
          else if forallb (fun p => Qle_bool idle p) power_list then Running
          else if Qle_bool (median power_list) off then Off
          else if Qle_bool off (median power_list) && Qle_bool (median power_list) idle
               then Done
          else FallThrough)
  end.

(* ------------------------------------------------------------------------- *)
(** ** [fib] (lines 28-31) on binary64

    A finite Python float is [m * 2 ^ e] with [|m| < 2 ^ 53], kept as the
    pair [(m, e)].  Every operation computes the exact rational result and
    rounds it to nearest, ties to even, with a 53-bit significand and least
    exponent -1074 (IEEE 754 binary64).  [None] is an infinite result or a
    raised exception. *)

Definition b64 : Type := (Z * Z)%type.

(** The value [m * 2 ^ e] as a fraction [(num, den)] with [den > 0]. *)
Definition b64_frac (x : b64) : Z * Z :=
  let '(m, e) := x in if 0 <=? e then (m * 2 ^ e, 1) else (m, 2 ^ (- e)).

(** [a / den >= 2 ^ k]. *)
Definition ge_pow2 (a den k : Z) : bool :=
  if 0 <=? k then den * 2 ^ k <=? a else den <=? a * 2 ^ (- k).

(** [a / (den * 2 ^ e)] rounded to an integer, to nearest with ties to even. *)
Definition round_at (a den e : Z) : Z :=
  let '(n, d) := if 0 <=? e then (a, den * 2 ^ e) else (a * 2 ^ (- e), den) in
  let q := n / d in
  let r := n mod d in
  if (d <? 2 * r) || ((2 * r =? d) && Z.odd q) then q + 1 else q.

(** The binary64 value nearest to [num / den] ([den > 0]); [None] when it
    overflows to an infinity. *)
Definition round_b64 (num den : Z) : option b64 :=
  if num =? 0 then Some (0, 0) else
  let a := Z.abs num in
  let l := Z.log2 a - Z.log2 den in
  let e := Z.max (if ge_pow2 a den l then l - 52 else l - 53) (-1074) in
  let q := round_at a den e in
  if (if 0 <=? e then 2 ^ 1024 <=? q * 2 ^ e else 2 ^ (1024 - e) <=? q) then None
  else Some (Z.sgn num * q, e).

Definition b64_add (x y : b64) : option b64 :=
  let '(n1, d1) := b64_frac x in
  let '(n2, d2) := b64_frac y in
  round_b64 (n1 * d2 + n2 * d1) (d1 * d2).

Definition b64_sub (x y : b64) : option b64 :=
  let '(n1, d1) := b64_frac x in
  let '(n2, d2) := b64_frac y in
  round_b64 (n1 * d2 - n2 * d1) (d1 * d2).

(** [x / y]; [None] is also the [ZeroDivisionError] of [y = 0]. *)
Definition b64_div (x y : b64) : option b64 :=
  let '(n1, d1) := b64_frac x in
  let '(n2, d2) := b64_frac y in
  if n2 =? 0 then None else round_b64 (Z.sgn n2 * n1 * d2) (d1 * Z.abs n2).

(** [math.sqrt] of a positive float with [m < 2 ^ 105]: the square root of
    [m * 2 ^ e] is that of the integer [big] times [2 ^ e'], with [big] of
    105 or 106 bits; the integer square root is rounded to nearest (an
    irrational root has no ties). *)
Definition b64_sqrt (x : b64) : b64 :=
  let '(m, e) := x in
  let e' := (Z.log2 m + e - 104) / 2 in
  let big := m * 2 ^ (e - 2 * e') in
  let r := Z.sqrt big in
  (if r <? big - r * r then r + 1 else r, e').

(** [int(x)] of a finite float: truncation towards zero. *)
Definition b64_int (x : b64) : Z :=
  let '(m, e) := x in if 0 <=? e then m * 2 ^ e else Z.quot m (2 ^ (- e)).

(** [x ** n] for a float [x] and an int [n], as CPython's [float_pow] does
    it: [n] converted to a float (an [OverflowError] when too large), [1.0]
    for a zero exponent, a negative base replaced by its absolute value and
    the result negated for an odd exponent, and the C library's [pow] of the
    rest, taken as correctly rounded.  An overflow sets [errno] to ERANGE and
    raises [OverflowError]; an underflow returns the rounded value. *)
Definition b64_pow (x : b64) (n : Z) : option b64 :=
  match round_b64 n 1 with
  | None => None
  | Some nf =>
      let w := b64_int nf in
      if w =? 0 then Some (1, 0) else
      let '(m, e) := x in
      if m =? 0 then (if w <? 0 then None else Some (0, 0)) else
      let '(num, den) := b64_frac (Z.abs m, e) in
      let r := if 0 <? w then round_b64 (num ^ w) (den ^ w)
               else round_b64 (den ^ (- w)) (num ^ (- w)) in
      if (m <? 0) && Z.odd w then option_map (fun y => (- fst y, snd y)) r else r
  end.

(** [fib]: [p], [q], [p ** n - q ** n] and the quotient by [math.sqrt(5)]
    in binary64, then [int]; an infinite quotient makes [int] raise
    [OverflowError], so every [None] is that exception. *)
Definition fib (n : Z) : option Z :=
  let sqrt5 := b64_sqrt (5, 0) in
  match b64_add (1, 0) sqrt5, b64_sub (1, 0) sqrt5 with
  | Some a, Some b =>
      match b64_div a (2, 0), b64_div b (2, 0) with
      | Some p, Some q =>
          match b64_pow p n with
          | None => None
          | Some pn =>
              match b64_pow q n with
              | None => None
              | Some qn =>
                  match b64_sub pn qn with
                  | None => None
                  | Some d =>
                      match b64_div d sqrt5 with
                      | None => None
                      | Some r => Some (b64_int r)
                      end
                  end
              end
          end
      | _, _ => None
      end
  | _, _ => None
  end.

Arguments fib : simpl never.

(** The Fibonacci numbers 0, 1, 1, 2, 3, 5, ... by their recurrence. *)
Fixpoint fibonacci_pair (n : nat) : Z * Z :=
  match n with
  | O => (0, 1)
  | S m => let '(a, b) := fibonacci_pair m in (b, a + b)
  end.

Definition fibonacci (n : nat) : Z := fst (fibonacci_pair n).

(* ------------------------------------------------------------------------- *)
(** ** Message text *)

Definition string_of_Z (z : Z) : string := NilZero.string_of_int (Z.to_int z).

Fixpoint replicate (n : nat) (c : Ascii.ascii) : string :=
  match n with
  | O => EmptyString
  | S m => String c (replicate m c)
  end.

(** Left padding to [width] characters, as the format width of Python. *)
Definition pad_left (c : Ascii.ascii) (width : nat) (s : string) : string :=
  replicate (width - String.length s) c ++ s.

Definition zero_pad (width : nat) (z : Z) : string := pad_left "0"%char width (string_of_Z z).

Definition newline : string := String (Ascii.ascii_of_nat 10) EmptyString.

(** [str(timedelta)]: ["[D day[s], ]H:MM:SS[.ffffff]"], days rounded down. *)
Definition fmt_timedelta (d : Z) : string :=
  let day := 86400 * us_per_second in
  let days := d / day in
  let rem := d mod day in
  let secs := rem / us_per_second in
  let us := rem mod us_per_second in
  (if days =? 0 then EmptyString
   else string_of_Z days ++ " day" ++ (if Z.abs days =? 1 then EmptyString else "s") ++ ", ")
  ++ string_of_Z (secs / 3600) ++ ":" ++ zero_pad 2 ((secs mod 3600) / 60)
  ++ ":" ++ zero_pad 2 (secs mod 60)
  ++ (if us =? 0 then EmptyString else "." ++ zero_pad 6 us).

(** Round half to even of a non-negative rational. *)
Definition round_half_even (q : Q) : Z :=
  let f := Qnum q / Zpos (Qden q) in
  let r := Qnum q mod Zpos (Qden q) in
  match Z.compare (2 * r) (Zpos (Qden q)) with
  | Lt => f
  | Gt => f + 1
  | Eq => if Z.even f then f else f + 1
  end.

(** [f"{x:4.2f}"]. *)
Definition fmt_4_2f (x : Q) : string :=
  let r := round_half_even (Qabs x * 100) in
  pad_left " "%char 4
    ((if Qlt_le_dec x 0 then "-" else EmptyString)
     ++ string_of_Z (r / 100) ++ "." ++ zero_pad 2 (r mod 100)).

(** [config.config.get('device_name', f'`{csv_log_name}`')] *)
Definition display_name (c : config) (csv_log_name : string) : string :=
  match device_name c with
  | Some n => n
  | None => "`" ++ csv_log_name ++ "`"
  end.

(* ------------------------------------------------------------------------- *)
(** ** Notification transport *)

Inductive target := ServerMail | Todo | JoPrivate.

(** One call of [telegram_bot_sendtext(text, chat_id, disable_notification)]. *)
Record send := mkSend { s_target : target; s_text : string; s_muted : bool }.

Definition send_if (b : bool) (s : send) : list send := if b then [s] else [].

(** [result_ok = result_ok and bool(result.get("ok"))] over the sends in
    order; every send is made, whatever the earlier results. *)
Definition deliver (ack : send -> bool) (sends : list send) : bool :=
  fold_left (fun ok s => ok && ack s) sends true.

(** The three [if config.stats_X_notification_T > 0] blocks of [print_on] and
    [print_off]: the level comes from the record [r], the muted flag from the
    [done] record, as in the source. *)
Definition sends_for (r dn : stats) (text : string) : list send :=
  send_if (0 <? n_server_mail r) (mkSend ServerMail text (n_server_mail dn =? 1))
  ++ send_if (0 <? n_todo r) (mkSend Todo text (n_todo dn =? 1))
  ++ send_if (0 <? n_jo_private r) (mkSend JoPrivate text (n_jo_private dn =? 1)).

(** Result of a [print_X]: the returned bool, the updated config and the
    sends attempted. *)
Definition outcome : Type := (bool * config * list send)%type.

(* ------------------------------------------------------------------------- *)
(** ** [print_on] (lines 747-804) *)

Definition print_on (c : config) (current_power_on_time : Z) (csv_log_name : string)
    (latest_total : Q) (suppress_message : bool) (ack : send -> bool) (now : Z)
    : outcome :=
  if current_power_on_time <=? last_sent (st_on c) then (false, c, [])
  else
  let last_off_or_done := Z.max (time (st_off c)) (time (st_done c)) in
  if last_off_or_done <=? last_sent (st_on c) then (false, c, [])
  else
  let c1 := upd_on (fun s => set_power_total latest_total (set_time current_power_on_time s)) c in
  let sends := if suppress_message then []
               else sends_for (st_on c1) (st_done c1) (display_name c1 csv_log_name ++ " gestartet") in
  let result_ok := if suppress_message then true else deliver ack sends in
  let c2 := if result_ok then upd_on (set_last_sent now) c1 else c1 in
  (true, set_counter 0 c2, sends).

(* ------------------------------------------------------------------------- *)
(** ** [print_off] (lines 678-742) *)

Definition print_off (c : config) (current_power_off_time : Z) (latest_total_power : Q)
    (csv_log_name : string) (suppress_message : bool) (ack : send -> bool) (now : Z)
    : outcome :=
  let last_on_or_done := Z.max (time (st_on c)) (time (st_done c)) in
  if current_power_off_time - last_on_or_done <? min_runtime c then (false, c, [])
  else if current_power_off_time - time (st_running c) <? min_data_window c then (false, c, [])
  else if last_on_or_done <=? last_sent (st_off c) then (false, c, [])
  else
  let c1 := upd_off (fun s => set_power_total latest_total_power
                                (set_time current_power_off_time s)) c in
  let sending_message := year_is_1 (last_sent (st_off c1))
                         || (last_sent (st_off c1) <? time (st_off c1)) in
  if negb sending_message then (false, c1, [])
  else
  let sends := if suppress_message then []
               else sends_for (st_off c1) (st_done c1) (display_name c1 csv_log_name ++ " aus") in
  let result_ok := if suppress_message then true else deliver ack sends in
  let c2 := if result_ok then upd_off (set_last_sent now) c1 else c1 in
  (true, set_counter 0 c2, sends).

(* ------------------------------------------------------------------------- *)
(** ** [print_done] (lines 583-673) *)

(** [n_th_fib = max(300, fib(config.re_remind_counter))], in seconds;
    [None] is the [OverflowError] of [fib]. *)
Definition re_remind_wait (counter : Z) : option Z :=
  match fib counter with
  | None => None
  | Some f => Some (Z.max 300 f)
  end.

Arguments re_remind_wait : simpl never.

(** [datetime.timedelta(seconds=s)] in microseconds: the constructor moves
    [s // 86400] into the days and raises [OverflowError] when their
    magnitude exceeds 999999999. *)
Definition timedelta_seconds (s : Z) : option Z :=
  if 999999999 <? Z.abs (s / 86400) then None else Some (s * us_per_second).

(** The [re_remind_now] flag; [None] is the [KeyError] of a missing
    [re_remind_counter], or the [OverflowError] of [fib] or of
    [timedelta(seconds=n_th_fib)]. *)
Definition re_remind_now_of (c : config) (current_done_time : Z) : option bool :=
  if re_remind c then
    match re_remind_counter c with
    | None => None
    | Some k =>
        match re_remind_wait k with
        | None => None
        | Some n_th_fib =>
            match timedelta_seconds n_th_fib with
            | None => None
            | Some fib_delta =>
                Some (fib_delta <=? current_done_time - last_sent (st_done c))
            end
        end
    end
  else Some false.

Definition done_message (c : config) (csv_log_name : string) (current_done_time : Z)
    (re_remind_now : bool) (k : Z) : string :=
  display_name c csv_log_name ++ " Fertig"
  ++ (if re_remind_now && (0 <? k) then
        " seit " ++ fmt_timedelta (current_done_time - time (st_done c))
        ++ newline ++ "Erinnerung Nr. " ++ string_of_Z k
      else
        newline ++ fmt_4_2f (power_total (st_done c) - power_total (st_on c))
        ++ "kWh verbraucht in " ++ fmt_timedelta (time (st_done c) - time (st_on c))).

(** [if config.stats_done_notification_todo > 0 and "Erinnerung" not in message] *)
Definition done_sends (dn : stats) (message : string) : list send :=
  send_if (0 <? n_server_mail dn) (mkSend ServerMail message (n_server_mail dn =? 1))
  ++ send_if ((0 <? n_todo dn) && match String.index 0 "Erinnerung" message with
                                  | None => true | Some _ => false end)
       (mkSend Todo message (n_todo dn =? 1))
  ++ send_if (0 <? n_jo_private dn) (mkSend JoPrivate message (n_jo_private dn =? 1)).

Definition print_done (c : config) (current_done_time : Z) (latest_total_power : Q)
    (csv_log_name : string) (suppress_message : bool) (ack : send -> bool) (now : Z)
    : option outcome :=
  let last_on_or_off := Z.max (time (st_on c)) (time (st_off c)) in
  if current_done_time - last_on_or_off <? min_runtime c then Some (false, c, [])
  else if current_done_time - time (st_running c) <? min_data_window c then Some (false, c, [])
  else
  match re_remind_now_of c current_done_time with
  | None => None
  | Some re_remind_now =>
    if (last_on_or_off <=? last_sent (st_done c)) && negb re_remind_now then Some (false, c, [])
    else
    match re_remind_counter c with
    | None => None
    | Some k =>
      let c1 := if k =? 0 then
                  upd_done (fun s => set_power_total latest_total_power
                                       (set_time current_done_time s)) c
                else c in
      let sending_message := year_is_1 (last_sent (st_done c1))
                             || (last_sent (st_done c1) <? time (st_done c1))
                             || re_remind_now in
      if negb sending_message then Some (false, c1, [])
      else
      let sends := if suppress_message then []
                   else done_sends (st_done c1)
                          (done_message c1 csv_log_name current_done_time re_remind_now k) in
      let result_ok := if suppress_message then true else deliver ack sends in
      let c2 := if result_ok then set_counter (k + 1) (upd_done (set_last_sent now) c1) else c1 in
      Some (true, c2, sends)
    end
  end.

(* ------------------------------------------------------------------------- *)
(** ** One tick of [check_status] after the window extraction (lines 848-865)

    [time_latest], [time_earliest] and [last_total_power] are the values the
    window loop computed, [latest_line_total] is the [Total] of [lines[-1]]. *)

Record flags := mkFlags { sent_on : bool; sent_off : bool; sent_done : bool;
                          sent_running : bool }.

Definition check_status_tick (c : config) (csv_log_name : string) (power_list : list Q)
    (time_latest time_earliest : Z) (last_total_power latest_line_total : Q)
    (suppress : bool) (ack : send -> bool) (now : Z)
    : option (config * flags * list send) :=
  match classify (off_power c) (max_idle_power c) power_list with
  | None => None
  | Some Starting =>
    let '(b, c', s) := print_on c time_latest csv_log_name latest_line_total suppress ack now in
    Some (c', mkFlags b false false false, s)
  | Some Running =>
    let c1 := set_counter 0 (upd_running (set_time time_latest) c) in
    if (time (st_on c1) <? time (st_done c1)) && (time (st_on c1) <? time (st_off c1)) then
      let '(b, c', s) := print_on c1 time_latest csv_log_name latest_line_total suppress ack now in
      Some (c', mkFlags b false false true, s)
    else Some (c1, mkFlags false false false true, [])
  | Some Off =>
    let '(b, c', s) := print_off c time_earliest last_total_power csv_log_name suppress ack now in
    Some (c', mkFlags false b false false, s)
  | Some Done =>
    match print_done c time_earliest last_total_power csv_log_name suppress ack now with
    | None => None
    | Some (b, c', s) => Some (c', mkFlags false false b false, s)
    end
  | Some FallThrough => Some (c, mkFlags false false false false, [])
  end.

(* ------------------------------------------------------------------------- *)
(** ** The persisted JSON document and [update_dict_recursive] (lines 65-88) *)

#[local] Set Warnings "-register-all".

Inductive json :=
| JNull
| JBool (b : bool)
| JNum (q : Q)
| JStr (s : string)
| JArr (l : list json)
| JObj (d : list (string * json)).

(** A Python dict: keys in insertion order. *)
Definition dict : Type := list (string * json).

(** [d[k]] / [d.get(k)]: [None] when [k not in d]. *)
Fixpoint lookup (k : string) (d : dict) : option json :=
  match d with
  | [] => None
  | (k', v) :: r => if String.eqb k k' then Some v else lookup k r
  end.

(** [d[k] = v]: an existing key keeps its position, a new key goes last. *)
Fixpoint dict_set (k : string) (v : json) (d : dict) : dict :=
  match d with
  | [] => [(k, v)]
  | (k', v') :: r => if String.eqb k k' then (k', v) :: r else (k', v') :: dict_set k v r
  end.

(** [update_dict_recursive(config, default, reset)].  The function mutates
    [config] in place and returns it; here it returns the new value.  [None]
    is the [TypeError] or [AttributeError] raised when [config] is not a dict
    and [default] is not empty ([k in config], [config[k] = ...] and
    [config.get] on a number, string, list, bool or None).  For a dict
    default, a missing key is first set to [{}] and then to the merged value,
    which is [config[k]] merged with the default, recursively, with the
    default [reset=False]. *)
Fixpoint update_value (config : json) (default : json) (reset : bool)
    {struct default} : option json :=
  match default with
  | JObj dd =>
    (fix go (config : json) (items : dict) {struct items} : option json :=
       match items with
       | [] => Some config
       | (default_key, default_value) :: rest =>
         match config with
         | JObj cd =>
           match default_value with
           | JObj _ =>
             let sub := match lookup default_key cd with Some v => v | None => JObj [] end in
             match update_value sub default_value false with
             | None => None
             | Some merged => go (JObj (dict_set default_key merged cd)) rest
             end
           | _ =>
             let v := if reset then default_value
                      else match lookup default_key cd with
                           | Some v => v | None => default_value end in
             go (JObj (dict_set default_key v cd)) rest
           end
         | _ => None
         end
       end) config dd
  | _ => Some config
  end.

Definition update_dict_recursive (config : json) (default : dict) (reset : bool) : option json :=
  update_value config (JObj default) reset.

Open Scope string_scope.

(** [datetime.datetime.min.isoformat()] *)
Definition iso_min : string := "0001-01-01T00:00:00".

Definition default_stats (server_mail todo jo_private : Q) : json :=
  JObj [("time", JStr iso_min); ("last_sent", JStr iso_min); ("power_total", JNum 0);
        ("notification", JObj [("server-mail", JNum server_mail); ("todo", JNum todo);
                               ("jo_private", JNum jo_private)])].

(** The [default] dict of [Config.load_config]. *)
Definition load_config_default : dict :=
  [("off_power", JNum 0); ("max_idle_power", JNum 5); ("min_runtime_minutes", JNum 20);
   ("min_data_window_minutes", JNum (9 # 10)); ("re_remind", JBool false);
   ("stats", JObj [("on", default_stats 1 0 0); ("running", default_stats 0 0 0);
                   ("done", default_stats 1 1 2); ("off", default_stats 1 0 0)])].

(** [Config.load_config]: the parsed file (or [{}] when it does not exist)
    merged with the defaults. *)
Definition load_config (stored : option json) (reset : bool) : option json :=
  update_dict_recursive (match stored with Some j => j | None => JObj [] end)
    load_config_default reset.

Close Scope string_scope.

(** A stored document [b] extends [a]: every key of an object of [a] is still
    there in [b], with the same value when that value is not an object and
    with an extending object when it is. *)
Fixpoint extends (a b : json) : Prop :=
  match a with
  | JObj ad =>
    match b with
    | JObj bd =>
      (fix go (l : dict) : Prop :=
         match l with
         | [] => True
         | (k, x) :: r =>
           (lookup k ad = Some x -> exists y, lookup k bd = Some y /\ extends x y) /\ go r
         end) ad
    | _ => False
    end
  | _ => b = a
  end.

(** Every key of the defaults [d] is present in [j], holding an object that
    is itself complete wherever the default holds an object. *)
Fixpoint complete (j : json) (d : json) {struct d} : Prop :=
  match d with
  | JObj dd =>
    (fix go (items : dict) : Prop :=
       match items with
       | [] => True
       | (k, dv) :: rest =>
         match j with
         | JObj jd =>
           (exists v, lookup k jd = Some v
                      /\ match dv with JObj _ => complete v dv | _ => True end)
           /\ go rest
         | _ => False
         end
       end) dd
  | _ => True
  end.

(** The value [update_dict_recursive] gives to key [k] of the dict [cd]. *)
Definition merged_at (cd d : dict) (reset : bool) (k : string) : option json :=
  match lookup k d with
  | None => lookup k cd
  | Some (JObj dsub) =>
    update_dict_recursive (match lookup k cd with Some v => v | None => JObj [] end) dsub false
  | Some dv => Some (if reset then dv else match lookup k cd with Some v => v | None => dv end)
  end.

(* ------------------------------------------------------------------------- *)
(** ** [Config.save_config] (lines 413-428) *)

(** [del d[k]] *)
Fixpoint dict_delete (k : string) (d : dict) : dict :=
  match d with
  | [] => []
  | (k', v) :: r => if String.eqb k k' then r else (k', v) :: dict_delete k r
  end.

Definition str_contains (needle hay : string) : bool :=
  match String.index 0 needle hay with Some _ => true | None => false end.

(** The entries of [deprecated_keys]: a top-level key, or a parent key with
    child keys. *)
Inductive deprecated := DKey (k : string) | DNested (parent : string) (children : list string).

Definition deprecated_keys : list deprecated :=
  [DKey "min_idle_minutes"; DNested "stats" ["skipped_print_count"];
   DKey "min_done_count"; DKey "min_idle_count"]%string.

(** [if child_key in self.config[parent_key]: del self.config[parent_key][child_key]];
    [None] is the [TypeError] of [in] or [del] on a value that is not a dict
    ([in] on a string is a substring test, on a list a membership test). *)
Definition delete_child (child : string) (v : json) : option json :=
  match v with
  | JObj d => Some (JObj (match lookup child d with Some _ => dict_delete child d | None => d end))
  | JStr s => if str_contains child s then None else Some v
  | JArr l => if existsb (fun x => match x with JStr s => String.eqb s child | _ => false end) l
              then None else Some v
  | _ => None
  end.

Definition prune_one (cd : dict) (key : deprecated) : option dict :=
  match key with
  | DKey k => Some (match lookup k cd with Some _ => dict_delete k cd | None => cd end)
  | DNested parent children =>
    match lookup parent cd with
    | None => Some cd
    | Some pv =>
      match fold_left (fun acc ch => match acc with
                                      | None => None
                                      | Some v => delete_child ch v
                                      end) children (Some pv) with
      | None => None
      | Some pv' => Some (dict_set parent pv' cd)
      end
    end
  end.

(** The loop over [deprecated_keys]. *)
Definition prune_deprecated (cd : dict) : option dict :=
  fold_left (fun acc key => match acc with None => None | Some d => prune_one d key end)
    deprecated_keys (Some cd).

(** The file [json_name]: absent, or its text. *)
Definition file_state : Type := option string.

(** The file states [save_config] goes through, in order, each one a state a
    crash can leave behind: the state before, the state after
    [open(self.json_name, mode='w')] (created or truncated to empty), and the
    state once [file.write(dump)] has reached the file when the [with] block
    closes it.  [json_dumps] is [json.dumps(_, indent=4)] of the Python
    library.  [None] is an exception of the pruning loop, raised before the
    file is opened. *)
Definition save_config (json_dumps : json -> string) (cd : dict) (before : file_state)
    : option (list file_state) :=
  match prune_deprecated cd with
  | None => None
  | Some pruned =>
    let dump := json_dumps (JObj pruned) in
    Some [before; Some EmptyString; Some dump]
  end.

(* ------------------------------------------------------------------------- *)
(** ** [triplewise] (lines 37-41) *)

(** [itertools.pairwise]: overlapping pairs. *)
Fixpoint pairwise {A : Type} (l : list A) : list (A * A) :=
  match l with
  | a :: ((b :: _) as r) => (a, b) :: pairwise r
  | _ => []
  end.

(** [for (a, _), (b, c) in pairwise(pairwise(iterable)): yield a, b, c] *)
Definition triplewise {A : Type} (l : list A) : list (A * A * A) :=
  map (fun '((a, _), (b, c)) => (a, b, c)) (pairwise (pairwise l)).

(* ------------------------------------------------------------------------- *)
(** ** [prune_file] (lines 886-932)

    A CSV file is the list of its rows, a row the list of its fields. *)

Definition row : Type := list string.

(** [header.index(key)]; [None] is the [ValueError] of a missing key. *)
Fixpoint py_index (x : string) (l : list string) : option nat :=
  match l with
  | [] => None
  | y :: r => if String.eqb x y then Some O else option_map S (py_index x r)
  end.

Definition interesting_keys : list string :=
  ["Power"; "Total"; "TotalStartTime"; "power1"]%string.

Definition keep_n_lines : nat := 100.

(** The inner [for key in interesting_keys] loop over one triplet: [Some
    true] when it reaches [kept_lines.append(line_triplet[1])], [Some false]
    when it runs out of keys; [None] is the [ValueError] of [header.index] or
    the [IndexError] of a row shorter than the header.  [next_val] is only
    read when [prev_val == curr_val]. *)
Fixpoint keep_center (header : row) (keys : list string) (a b c : row) : option bool :=
  match keys with
  | [] => Some false
  | key :: ks =>
    match py_index key header with
    | None => None
    | Some i =>
      match nth_error a i with
      | None => None
      | Some prev_val =>
        match nth_error b i with
        | None => None
        | Some curr_val =>
          if negb (String.eqb prev_val curr_val) then Some true
          else match nth_error c i with
               | None => None
               | Some next_val =>
                 if negb (String.eqb curr_val next_val) then Some true
                 else keep_center header ks a b c
               end
        end
      end
    end
  end.

(** [for line_triplet in triplewise(lines)]: the centre rows kept. *)
Fixpoint kept_centers (header : row) (ts : list (row * row * row)) : option (list row) :=
  match ts with
  | [] => Some []
  | (a, b, c) :: r =>
    match keep_center header interesting_keys a b c with
    | None => None
    | Some true => option_map (cons b) (kept_centers header r)
    | Some false => kept_centers header r
    end
  end.

(** The rows written back after the header.  [all_lines[:-keep_n_lines]] and
    [all_lines[-keep_n_lines:]] are [firstn] and [skipn] of
    [len(all_lines) - keep_n_lines] (truncated at 0, as Python clamps the
    slice bounds); [None] is the [IndexError] of [lines[0]] or an exception of
    the loop. *)
Definition prune_rows (header : row) (all_lines : list row) : option (list row) :=
  let n := (List.length all_lines - keep_n_lines)%nat in
  let lines := firstn n all_lines in
  let lines_kept_back := skipn n all_lines in
  match lines with
  | [] => None
  | l0 :: _ =>
    match kept_centers header (triplewise lines) with
    | None => None
    | Some mid => Some ([l0] ++ mid ++ [last lines l0] ++ lines_kept_back)
    end
  end.

(** The file after [prune_file]: unchanged when [_is_implemented] is false;
    [None] when an exception is raised before the file is opened for writing
    ([next(csv_reader)] on an empty file raises [StopIteration]). *)
Definition prune_file (is_implemented : bool) (file : list row) : option (list row) :=
  if negb is_implemented then Some file
  else match file with
       | [] => None
       | header :: all_lines => option_map (cons header) (prune_rows header all_lines)
       end.

(** [l1] is [l2] with some elements left out, in the same order. *)
Inductive subseq {A : Type} : list A -> list A -> Prop :=
| subseq_nil : subseq [] []
| subseq_skip (x : A) (l1 l2 : list A) : subseq l1 l2 -> subseq l1 (x :: l2)
| subseq_take (x : A) (l1 l2 : list A) : subseq l1 l2 -> subseq (x :: l1) (x :: l2).

(* ------------------------------------------------------------------------- *)
(** ** The window of [check_status] (lines 822-845)

    One CSV line, with its [Power], [Time] and [Total] fields parsed (the
    parse errors of [float] and [fromisoformat] are not modelled). *)

Record sample := mkSample { s_power : Q; s_time : Z; s_total : Q }.

(** [datetime.datetime.max] (9999-12-31T23:59:59.999999). *)
Definition datetime_max : Z := 3652059 * 86400 * us_per_second - 1.

(** The loop [for count, line in enumerate(lines[::-1])], over the reversed
    lines, with its state [power_list], [time_latest], [time_earliest],
    [last_total_power].  [None] is the [ZeroDivisionError] of [/ interval]. *)
Fixpoint window_loop (mdw : Z) (interval : Q) (count : nat) (rev_lines : list sample)
    (power_list : list Q) (time_latest time_earliest : Z) (last_total_power : Q)
    : option (list Q * Z * Z * Q) :=
  match rev_lines with
  | [] => Some (power_list, time_latest, time_earliest, last_total_power)
  | line :: rest =>
    let power_list' := power_list ++ [s_power line] in
    let time_latest' := Z.max time_latest (s_time line) in
    let time_earliest' := Z.min time_earliest (s_time line) in
    let delta := time_latest' - time_earliest' in
    if Qeq_bool interval 0 then None
    else if negb (Qle_bool (inject_Z (Z.of_nat count)) ((mdw # 1000000) / interval))
            && (mdw <? delta)
    then Some (power_list', time_latest', time_earliest', last_total_power)
    else window_loop mdw interval (S count) rest power_list' time_latest' time_earliest'
           (s_total line)
  end.

(** The window: [power_list] (reversed back), [time_latest],
    [time_earliest] and [last_total_power]. *)
Definition window (mdw : Z) (interval : Q) (lines : list sample)
    : option (list Q * Z * Z * Q) :=
  match window_loop mdw interval 0 (rev lines) [] datetime_min datetime_max 0 with
  | None => None
  | Some (pl, tl, te, ltp) => Some (rev pl, tl, te, ltp)
  end.

(** The [break] condition of the loop at [count], when the samples read so
    far are [taken] and the loop started from [time_latest],
    [time_earliest]: [count > min_data_window.total_seconds() / interval and
    delta > min_data_window]. *)
Definition window_break (mdw : Z) (interval : Q) (count : nat) (taken : list sample)
    (time_latest time_earliest : Z) : bool :=
  negb (Qle_bool (inject_Z (Z.of_nat count)) ((mdw # 1000000) / interval))
  && (mdw <? fold_left Z.max (map s_time taken) time_latest
             - fold_left Z.min (map s_time taken) time_earliest).


(* ------------------------------------------------------------------------- *)
(** ** The debug replay of [do_once] (lines 935-953) and the slice of
    [check_status] (lines 810-814) *)





(* ------------------------------------------------------------------------- *)
(** ** The escaping of [telegram_bot_sendtext] (lines 547-551) *)

Definition backslash : ascii := "\"%char.

Definition escape_chars : list ascii :=
  ["_"; "*"; "["; "]"; "("; ")"; "~"; ">"; "#"; "+"; "-"; "="; "|"; "{"; "}"; "."; "!"]%char.

(** [s.replace(old, new)] for a one-character [old]: every occurrence of the
    character is replaced, left to right. *)
Fixpoint str_replace_char (old : ascii) (new s : string) : string :=
  match s with
  | EmptyString => EmptyString
  | String c r =>
    if Ascii.eqb c old then new ++ str_replace_char old new r
    else String c (str_replace_char old new r)
  end.

(** [for char in escape_chars: message = message.replace(char, f"\\{char}")] *)
Definition escape_message (message : string) : string :=
  fold_left (fun m ch => str_replace_char ch (String backslash (String ch EmptyString)) m)
    escape_chars message.

(** Escaping every character of [chars] in one pass over the message. *)
Fixpoint escape_each (chars : list ascii) (s : string) : string :=
  match s with
  | EmptyString => EmptyString
  | String c r =>
    if existsb (Ascii.eqb c) chars then String backslash (String c (escape_each chars r))
    else String c (escape_each chars r)
  end.

(* ------------------------------------------------------------------------- *)
(** ** The CSV file of [log_to_csv] (lines 479-544) *)

Definition attribute_unit_keys : list string :=
  ["Time"; "Voltage"; "Current"; "Power"; "ApparentPower"; "ReactivePower"; "Factor";
   "Today"; "Yesterday"; "Total"; "Temperature1"; "TotalStartTime"; "power1"]%string.

Definition str_in (x : string) (l : list string) : bool := existsb (String.eqb x) l.

(** The header read from the existing file: its first line, when that line is
    non-empty and every item is a known attribute; [None] is the
    [FileNotFoundError] raised (or re-raised) by the [try] block. *)
Definition read_header (file : option (list row)) : option row :=
  match file with
  | None => None
  | Some [] => None
  | Some (line :: _) =>
    match line with
    | [] => None
    | _ => if forallb (fun item => str_in item attribute_unit_keys) line then Some line else None
    end
  end.

(** [data[attribute]] *)
Fixpoint str_lookup (k : string) (d : list (string * string)) : option string :=
  match d with
  | [] => None
  | (k', v) :: r => if String.eqb k k' then Some v else str_lookup k r
  end.

(** [for attribute in header: if attribute in attribute_unit.keys():
    row.append(data[attribute])]; [None] is a [KeyError]. *)
Fixpoint build_row (header : row) (data : list (string * string)) : option row :=
  match header with
  | [] => Some []
  | a :: r =>
    if str_in a attribute_unit_keys then
      match str_lookup a data, build_row r data with
      | Some v, Some rest => Some (v :: rest)
      | _, _ => None
      end
    else build_row r data
  end.

(** The file after the two [with open(file_name, mode='a')] blocks, and
    whether the second one completed ([false]: [data[attribute]] raised). *)
Definition log_to_csv_file (file : option (list row)) (data : list (string * string))
    : list row * bool :=
  let old := match file with Some f => f | None => [] end in
  let '(header, file1) :=
    match read_header file with
    | Some h => (h, old)
    | None => (attribute_unit_keys, old ++ [attribute_unit_keys])
    end in
  match build_row header data with
  | Some r => (file1 ++ [r], true)
  | None => (file1, false)
  end.

(* ------------------------------------------------------------------------- *)
(** ** The pass loop of [main] (lines 967-979) *)

(** [range(start, stop, step)] for [step > 0]. *)
Definition py_range (start stop step : Z) : list Z :=
  map (fun i => start + Z.of_nat i * step)
    (seq 0 (Z.to_nat ((stop - start + step - 1) / step))).

(** [for i in range(interval, 60 + 61 % interval, interval)] *)
Definition main_passes (interval : Z) : list Z :=
  py_range interval (60 + 61 mod interval) interval.

(* ------------------------------------------------------------------------- *)
(** ** Notification levels *)

(** [config.stats_X_notification_T] of the record [r] for target [t]. *)
Definition level (r : stats) (t : target) : Z :=
  match t with
  | ServerMail => n_server_mail r
  | Todo => n_todo r
  | JoPrivate => n_jo_private r
  end.

(* ------------------------------------------------------------------------- *)
(** ** Sample states *)

Definition day : Z := 86400 * us_per_second.
Definition minute : Z := 60 * us_per_second.

(** A washing machine two years after [datetime.min]: it was last switched
    off at day 800, the On notification was last sent at day 700; server-mail
    and todo are both configured for On. *)
Definition sample_stats (t ls : Z) (sm td jo : Z) : stats := mkStats t ls 0 sm td jo.

Definition cfg_on_pending : config :=
  mkConfig 0 5 false (Some 0) (20 * minute) (54 * us_per_second)
    (sample_stats (700 * day) (700 * day) 1 1 0)
    (sample_stats (800 * day) (800 * day) 1 0 0)
    (sample_stats (600 * day) (600 * day) 1 1 2)
    (sample_stats (799 * day) datetime_min 0 0 0)
    (Some "WMS"%string).

(** A device whose [min_runtime_minutes] was edited to [-2880] (two days
    back): the last On was at day 800, the Off notification was last sent at
    day 799. *)
Definition cfg_negative_runtime : config :=
  mkConfig 0 5 false (Some 0) (- 2 * day) (54 * us_per_second)
    (sample_stats (800 * day) (700 * day) 1 0 0)
    (sample_stats (799 * day) (799 * day) 1 0 0)
    (sample_stats (600 * day) (600 * day) 1 1 2)
    (sample_stats (100 * day) datetime_min 0 0 0)
    (Some "WMS"%string).

(** A run: On at day 900 (the On notification sent then), the last Off
    notification at day 800, actively running until day 900 + 10 minutes,
    [min_runtime] 20 minutes (the default). *)
Definition cfg_after_run : config :=
  mkConfig 0 5 false (Some 0) (20 * minute) (54 * us_per_second)
    (sample_stats (900 * day) (900 * day) 1 0 0)
    (sample_stats (800 * day) (800 * day) 1 0 0)
    (sample_stats (600 * day) (600 * day) 1 1 2)
    (sample_stats (900 * day + 10 * minute) datetime_min 0 0 0)
    (Some "WMS"%string).

(** A finished run with [re_remind] on: On at day 900, Done at day 900 + 1
    hour with its notification sent then, two reminders already sent. *)
Definition cfg_done_sent : config :=
  mkConfig 0 5 true (Some 2) (20 * minute) (54 * us_per_second)
    (sample_stats (900 * day) (900 * day) 1 0 0)
    (sample_stats (800 * day) (800 * day) 1 0 0)
    (sample_stats (900 * day + 60 * minute) (900 * day + 60 * minute) 1 1 2)
    (sample_stats (900 * day + 40 * minute) datetime_min 0 0 0)
    (Some "WMS"%string).

Definition ack_server_mail_only (s : send) : bool :=
  match s_target s with ServerMail => true | _ => false end.

(** A stored document with a manually added [device_name], a changed
    [off_power] and a partial [stats.on]. *)
Definition stored_sample : json :=
  JObj [("device_name"%string, JStr "Waschmaschine"%string); ("off_power"%string, JNum 2);
        ("stats"%string, JObj [("on"%string, JObj [("time"%string, JStr "2024-05-01T10:00:00"%string)])])].

(* ========================================================================= *)
(** * Properties *)

(** Ten samples one minute apart, from 10:00 to 10:09 on day 900, the
    power rising by 1 W per minute and the total by 1 Wh. *)
Definition window_sample : list sample :=
  map (fun i : nat => mkSample (inject_Z (Z.of_nat i)) (900 * 86400 * us_per_second
         + 10 * 3600 * us_per_second + Z.of_nat i * 60 * us_per_second) (inject_Z (Z.of_nat i)))
    (seq 0 10).

(* ------------------------------------------------------------------------- *)
(** ** Classifier *)

Lemma forallb_idle_of_Forall (idle : Q) (l : list Q) :
  Forall (fun p => (idle <= p)%Q) l -> forallb (fun p => Qle_bool idle p) l = true.
Proof.
  intro H. apply forallb_forall. intros x Hx.
  apply Qle_bool_iff. rewrite Forall_forall in H. auto.
Qed.

(** C1 (as stated, refuted): the one-sample window [[5]] is entirely at or
    above the idle ceiling [5] (with [off_power = 0]), but the Starting rule
    is checked first and matches, so the window is classified Starting, not
    Running. *)
Lemma C1_single_sample_is_starting :
  Forall (fun p => (5 <= p)%Q) [5%Q] /\ classify 0 5 [5%Q] = Some Starting.
Proof.
  split.
  - repeat constructor. apply Qle_refl.
  - reflexivity.
Qed.

(** C1 (amended): when every sample of a non-empty window is at or above
    [max_idle_power], the classification is Running unless the Starting rule
    (all samples but the last at or below [off_power], the last above it)
    matches first.  With [off_power < max_idle_power] (the defaults 0 and 5)
    this means: every such window of two or more samples is Running, and a
    one-sample window is Starting. *)
Theorem classify_all_above_idle (off idle : Q) (l : list Q) :
  l <> [] ->
  Forall (fun p => (idle <= p)%Q) l ->
  classify off idle l = Some (if is_starting off l then Starting else Running)
  /\ ((off < idle)%Q -> (2 <= List.length l)%nat -> classify off idle l = Some Running)
  /\ ((off < idle)%Q -> List.length l = 1%nat -> classify off idle l = Some Starting).
Proof.
  intros Hne Hall.
  assert (Hr : forallb (fun p => Qle_bool idle p) l = true)
    by (apply forallb_idle_of_Forall; exact Hall).
  assert (Hc : classify off idle l = Some (if is_starting off l then Starting else Running)).
  { destruct l as [|p r]; [congruence|]. unfold classify.
    rewrite Hr. destruct (is_starting off (p :: r)); reflexivity. }
  split; [exact Hc|]. split.
  - intros Hlt Hlen. rewrite Hc.
    destruct l as [|p [|p' r]]; simpl in Hlen; try lia.
    inversion Hall as [|? ? Hp _]; subst.
    assert (Hnot : Qle_bool p off = false).
    { destruct (Qle_bool p off) eqn:E; [|reflexivity].
      apply Qle_bool_iff in E. exfalso.
      apply (Qlt_irrefl off). eapply Qlt_le_trans; [exact Hlt|].
      eapply Qle_trans; [exact Hp|exact E]. }
    unfold is_starting. simpl removelast. simpl forallb. rewrite Hnot. reflexivity.
  - intros Hlt Hlen. rewrite Hc.
    destruct l as [|p [|p' r]]; simpl in Hlen; try lia.
    inversion Hall as [|? ? Hp _]; subst.
    assert (Hnot : Qle_bool p off = false).
    { destruct (Qle_bool p off) eqn:E; [|reflexivity].
      apply Qle_bool_iff in E. exfalso.
      apply (Qlt_irrefl off). eapply Qlt_le_trans; [exact Hlt|].
      eapply Qle_trans; [exact Hp|exact E]. }
    unfold is_starting. simpl. rewrite Hnot. reflexivity.
Qed.

Lemma classify_all_above_idle_witness :
  ([5%Q; 6%Q] <> []) /\ Forall (fun p => (5 <= p)%Q) [5%Q; 6%Q]
  /\ classify 0 5 [5%Q; 6%Q] = Some Running.
Proof.
  assert (Hne : [5%Q; 6%Q] <> []) by discriminate.
  assert (Hall : Forall (fun p => (5 <= p)%Q) [5%Q; 6%Q])
    by (repeat constructor; unfold Qle; simpl; lia).
  split; [exact Hne|]. split; [exact Hall|].
  apply (proj1 (proj2 (classify_all_above_idle 0 5 [5%Q; 6%Q] Hne Hall))).
  - reflexivity.
  - simpl. lia.
Defined.

(* ------------------------------------------------------------------------- *)
(** ** Delivery acknowledgments *)

Lemma deliver_forallb (ack : send -> bool) (l : list send) :
  deliver ack l = forallb ack l.
Proof.
  unfold deliver. cut (forall b, fold_left (fun ok s => ok && ack s) l b = b && forallb ack l).
  { intro H. rewrite H. reflexivity. }
  induction l as [|x r IH]; intro b; simpl.
  - rewrite andb_true_r. reflexivity.
  - rewrite IH. rewrite andb_assoc. reflexivity.
Qed.

(** The acknowledgment of a [print_X] call: [result_ok] of the source. *)
Definition acked (suppress : bool) (ack : send -> bool) (sends : list send) : bool :=
  if suppress then true else deliver ack sends.

Lemma acked_forallb (suppress : bool) (ack : send -> bool) (l : list send) :
  (suppress = true -> l = []) -> acked suppress ack l = forallb ack l.
Proof.
  intro H. unfold acked. destruct suppress.
  - rewrite (H eq_refl). reflexivity.
  - apply deliver_forallb.
Qed.

Lemma print_on_last_sent (c : config) (cur : Z) (csv : string) (lt : Q) (sup : bool)
    (ack : send -> bool) (now : Z) (b : bool) (c' : config) (s : list send) :
  print_on c cur csv lt sup ack now = (b, c', s) ->
  (b = false -> c' = c /\ s = [])
  /\ (b = true -> last_sent (st_on c') = (if forallb ack s then now else last_sent (st_on c))
      /\ (forallb ack s = false -> forall ack2 now2,
            exists c'', print_on c' cur csv lt sup ack2 now2 = (true, c'', s))).
Proof.
  unfold print_on.
  destruct (cur <=? last_sent (st_on c)) eqn:G1.
  { intro H. inversion H; subst. split; [auto|discriminate]. }
  destruct (Z.max (time (st_off c)) (time (st_done c)) <=? last_sent (st_on c)) eqn:G2.
  { intro H. inversion H; subst. split; [auto|discriminate]. }
  rewrite deliver_forallb.
  destruct sup; intro H; injection H as Hb Hc Hs; subst b c' s;
    (split; [discriminate|]; intros _).
  - simpl. split; [reflexivity|]. intros; discriminate.
  - destruct (forallb ack _) eqn:A; simpl.
    + split; [reflexivity|]. intros; discriminate.
    + split; [reflexivity|]. intros _ ack2 now2.
      rewrite G1, G2. eexists. reflexivity.
Qed.

Lemma print_off_last_sent (c : config) (cur : Z) (lt : Q) (csv : string) (sup : bool)
    (ack : send -> bool) (now : Z) (b : bool) (c' : config) (s : list send) :
  print_off c cur lt csv sup ack now = (b, c', s) ->
  (b = false -> s = [] /\ last_sent (st_off c') = last_sent (st_off c)
                /\ re_remind_counter c' = re_remind_counter c)
  /\ (b = true -> last_sent (st_off c') = (if forallb ack s then now else last_sent (st_off c))
      /\ (forallb ack s = false -> forall ack2 now2,
            exists c'', print_off c' cur lt csv sup ack2 now2 = (true, c'', s))).
Proof.
  unfold print_off.
  destruct (cur - Z.max (time (st_on c)) (time (st_done c)) <? min_runtime c) eqn:G1.
  { intro H. inversion H; subst. split; [auto|discriminate]. }
  destruct (cur - time (st_running c) <? min_data_window c) eqn:G2.
  { intro H. inversion H; subst. split; [auto|discriminate]. }
  destruct (Z.max (time (st_on c)) (time (st_done c)) <=? last_sent (st_off c)) eqn:G3.
  { intro H. inversion H; subst. split; [auto|discriminate]. }
  simpl.
  destruct (year_is_1 (last_sent (st_off c)) || (last_sent (st_off c) <? cur)) eqn:G4;
    simpl.
  2:{ intro H. inversion H; subst. split; [auto|discriminate]. }
  rewrite deliver_forallb.
  destruct sup; intro H; injection H as Hb Hc Hs; subst b c' s;
    (split; [discriminate|]; intros _).
  - simpl. split; [reflexivity|]. intros; discriminate.
  - destruct (forallb ack _) eqn:A; simpl.
    + split; [reflexivity|]. intros; discriminate.
    + split; [reflexivity|]. intros _ ack2 now2.
      rewrite G1, G2, G3. simpl. rewrite G4. eexists. reflexivity.
Qed.

Lemma re_remind_now_of_done_time (c : config) (f : stats -> stats) (cur : Z) :
  last_sent (f (st_done c)) = last_sent (st_done c) ->
  re_remind_now_of (upd_done f c) cur = re_remind_now_of c cur.
Proof. intro H. unfold re_remind_now_of. cbn [upd_done re_remind re_remind_counter st_done]. rewrite H. reflexivity. Qed.

Lemma print_done_last_sent (c : config) (cur : Z) (lt : Q) (csv : string) (sup : bool)
    (ack : send -> bool) (now : Z) (b : bool) (c' : config) (s : list send) :
  print_done c cur lt csv sup ack now = Some (b, c', s) ->
  (b = false -> s = [] /\ last_sent (st_done c') = last_sent (st_done c)
                /\ re_remind_counter c' = re_remind_counter c)
  /\ (b = true -> last_sent (st_done c') = (if forallb ack s then now else last_sent (st_done c))
      /\ (forallb ack s = false -> forall ack2 now2,
            exists c'', print_done c' cur lt csv sup ack2 now2 = Some (true, c'', s))).
Proof.
  unfold print_done.
  destruct (cur - Z.max (time (st_on c)) (time (st_off c)) <? min_runtime c) eqn:G1.
  { intro H. inversion H; subst. split; [auto|discriminate]. }
  destruct (cur - time (st_running c) <? min_data_window c) eqn:G2.
  { intro H. inversion H; subst. split; [auto|discriminate]. }
  destruct (re_remind_now_of c cur) as [rrn|] eqn:RR; [|discriminate].
  destruct ((Z.max (time (st_on c)) (time (st_off c)) <=? last_sent (st_done c))
            && negb rrn) eqn:G3.
  { intro H. inversion H; subst. split; [auto|discriminate]. }
  destruct (re_remind_counter c) as [k|] eqn:K; [|discriminate].
  destruct (k =? 0) eqn:K0; simpl.
  - destruct (year_is_1 (last_sent (st_done c)) || (last_sent (st_done c) <? cur) || rrn)
      eqn:G4; simpl.
    2:{ intro H. inversion H; subst. split; [auto|discriminate]. }
    rewrite deliver_forallb.
    destruct sup; intro H; injection H as Hb Hc Hs; subst b c' s;
      (split; [discriminate|]; intros _).
    + simpl. split; [reflexivity|]. intros; discriminate.
    + destruct (forallb ack _) eqn:A; simpl.
      * split; [reflexivity|]. intros; discriminate.
      * split; [reflexivity|]. intros _ ack2 now2.
        rewrite G1, G2. rewrite re_remind_now_of_done_time by reflexivity.
        rewrite RR, G3, K, K0. simpl. rewrite G4. eexists. reflexivity.
  - destruct (year_is_1 (last_sent (st_done c)) || (last_sent (st_done c) <? time (st_done c))
              || rrn) eqn:G4; simpl.
    2:{ intro H. inversion H; subst. split; [auto|discriminate]. }
    rewrite deliver_forallb.
    destruct sup; intro H; injection H as Hb Hc Hs; subst b c' s;
      (split; [discriminate|]; intros _).
    + simpl. split; [reflexivity|]. intros; discriminate.
    + destruct (forallb ack _) eqn:A; simpl.
      * split; [reflexivity|]. intros; discriminate.
      * split; [reflexivity|]. intros _ ack2 now2.
        rewrite G1, G2, RR, G3, K, K0. simpl. rewrite G4. eexists. reflexivity.
Qed.

(** C2: for every On, Off or Done notification that a [print_X] call goes
    through with, the record's [last_sent] becomes the current time [now]
    exactly when every attempted send was acknowledged ([forallb ack s]), and
    stays unchanged otherwise; after a failed delivery, the same call on the
    next tick (same classification and times, any acknowledgments and clock)
    attempts the very same sends again. *)
Theorem notification_sent_iff_all_acked :
  (forall c cur csv lt sup ack now c' s,
     print_on c cur csv lt sup ack now = (true, c', s) ->
     last_sent (st_on c') = (if forallb ack s then now else last_sent (st_on c))
     /\ (forallb ack s = false -> forall ack2 now2,
           exists c'', print_on c' cur csv lt sup ack2 now2 = (true, c'', s)))
  /\ (forall c cur lt csv sup ack now c' s,
     print_off c cur lt csv sup ack now = (true, c', s) ->
     last_sent (st_off c') = (if forallb ack s then now else last_sent (st_off c))
     /\ (forallb ack s = false -> forall ack2 now2,
           exists c'', print_off c' cur lt csv sup ack2 now2 = (true, c'', s)))
  /\ (forall c cur lt csv sup ack now c' s,
     print_done c cur lt csv sup ack now = Some (true, c', s) ->
     last_sent (st_done c') = (if forallb ack s then now else last_sent (st_done c))
     /\ (forallb ack s = false -> forall ack2 now2,
           exists c'', print_done c' cur lt csv sup ack2 now2 = Some (true, c'', s))).
Proof.
  split; [|split]; intros c cur a1 a2 sup ack now c' s H.
  - exact (proj2 (print_on_last_sent c cur a1 a2 sup ack now true c' s H) eq_refl).
  - exact (proj2 (print_off_last_sent c cur a1 a2 sup ack now true c' s H) eq_refl).
  - exact (proj2 (print_done_last_sent c cur a1 a2 sup ack now true c' s H) eq_refl).
Qed.

Lemma notification_sent_iff_all_acked_witness :
  exists c' s,
    print_on cfg_on_pending (900 * day) "wms.csv"%string 7%Q false ack_server_mail_only (901 * day)
      = (true, c', s)
    /\ List.length s = 2%nat
    /\ last_sent (st_on c') = last_sent (st_on cfg_on_pending)
    /\ exists c'', print_on c' (900 * day) "wms.csv"%string 7%Q false (fun _ => true) (902 * day)
                   = (true, c'', s).
Proof.
  pose proof (proj1 notification_sent_iff_all_acked cfg_on_pending (900 * day) "wms.csv"%string
                7%Q false ack_server_mail_only (901 * day) _ _ eq_refl) as [H1 H2].
  eexists. eexists. split; [reflexivity|]. split; [reflexivity|].
  split; [exact H1|]. apply H2. reflexivity.
Defined.

(* ------------------------------------------------------------------------- *)
(** ** [print_on] guards *)

(** C3 (as stated, refuted): evaluating the same Starting tick twice does
    produce a second On notification when the first delivery was not
    acknowledged by every target: [last_sent] of [on] stays put, so the
    second evaluation passes the guards again and re-sends to both targets. *)
Lemma C3_same_tick_twice_resends :
  exists c' s c'' s',
    print_on cfg_on_pending (900 * day) "wms.csv"%string 7%Q false ack_server_mail_only (901 * day)
      = (true, c', s)
    /\ print_on c' (900 * day) "wms.csv"%string 7%Q false ack_server_mail_only (901 * day)
      = (true, c'', s')
    /\ List.length s' = 2%nat.
Proof.
  do 4 eexists. split; [reflexivity|]. split; [reflexivity|]. reflexivity.
Qed.

(** C3 (amended): [print_on] goes through (returns True, sets the on-time and
    energy and attempts the sends) exactly when [on.last_sent] is earlier than
    the current on-time and [max(off.time, done.time)] is later than
    [on.last_sent]; otherwise it returns False, leaves the config unchanged
    and sends nothing.  When it goes through and every attempted send is
    acknowledged, [on.last_sent] becomes the wall-clock [now], so as long as
    [now] is not earlier than the on-time, evaluating the same tick again
    returns False and sends nothing.  (After a failed delivery the same tick
    fires again, see [notification_sent_iff_all_acked].) *)
Theorem print_on_guards (c : config) (cur : Z) (csv : string) (lt : Q) (sup : bool)
    (ack : send -> bool) (now : Z) (b : bool) (c' : config) (s : list send) :
  print_on c cur csv lt sup ack now = (b, c', s) ->
  (b = true <-> last_sent (st_on c) < cur
                /\ last_sent (st_on c) < Z.max (time (st_off c)) (time (st_done c)))
  /\ (b = false -> c' = c /\ s = [])
  /\ (b = true -> forallb ack s = true -> cur <= now ->
      forall ack2 now2, print_on c' cur csv lt sup ack2 now2 = (false, c', [])).
Proof.
  intro H.
  pose proof (print_on_last_sent c cur csv lt sup ack now b c' s H) as [Hf Ht].
  split; [|split; [exact Hf|]].
  - revert H. unfold print_on.
    destruct (cur <=? last_sent (st_on c)) eqn:G1.
    { intro H. inversion H; subst. split; [discriminate|]. intros [A _]. lia. }
    destruct (Z.max (time (st_off c)) (time (st_done c)) <=? last_sent (st_on c)) eqn:G2.
    { intro H. inversion H; subst. split; [discriminate|]. intros [_ A]. lia. }
    destruct (if sup then true else deliver ack _); intro H; inversion H; subst;
      split; (reflexivity || lia).
  - intros Hb Hack Hle ack2 now2. subst b.
    destruct (Ht eq_refl) as [Hls _]. rewrite Hack in Hls.
    unfold print_on at 1. rewrite Hls.
    destruct (cur <=? now) eqn:E; [reflexivity|lia].
Qed.

Lemma print_on_guards_witness :
  exists c' s,
    print_on cfg_on_pending (900 * day) "wms.csv"%string 7%Q false (fun _ => true) (901 * day)
      = (true, c', s)
    /\ print_on c' (900 * day) "wms.csv"%string 7%Q false (fun _ => true) (901 * day)
      = (false, c', []).
Proof.
  eexists. eexists. split; [reflexivity|].
  pose proof (print_on_guards cfg_on_pending (900 * day) "wms.csv"%string 7%Q false
                (fun _ => true) (901 * day) true _ _ eq_refl) as [_ [_ H]].
  apply H.
  - reflexivity.
  - reflexivity.
  - unfold day, us_per_second. lia.
Defined.

(* ------------------------------------------------------------------------- *)
(** ** Merging the stored document with the defaults *)

Section JsonInd.
Variable P : json -> Prop.
Hypothesis H_null : P JNull.
Hypothesis H_bool : forall b, P (JBool b).
Hypothesis H_num : forall q, P (JNum q).
Hypothesis H_str : forall s, P (JStr s).
Hypothesis H_arr : forall l, Forall P l -> P (JArr l).
Hypothesis H_obj : forall d, Forall (fun kv => P (snd kv)) d -> P (JObj d).

Fixpoint json_ind_nested (j : json) : P j :=
  match j with
  | JNull => H_null
  | JBool b => H_bool b
  | JNum q => H_num q
  | JStr s => H_str s
  | JArr l =>
    H_arr l ((fix go (l : list json) : Forall P l :=
                match l with
                | [] => Forall_nil _
                | x :: r => Forall_cons x (json_ind_nested x) (go r)
                end) l)
  | JObj d =>
    H_obj d ((fix go (d : dict) : Forall (fun kv => P (snd kv)) d :=
                match d with
                | [] => Forall_nil _
                | kv :: r => Forall_cons kv (json_ind_nested (snd kv)) (go r)
                end) d)
  end.
End JsonInd.

Lemma lookup_set_eq (k : string) (v : json) (d : dict) : lookup k (dict_set k v d) = Some v.
Proof.
  induction d as [|[k' v'] r IH]; simpl.
  - rewrite String.eqb_refl. reflexivity.
  - destruct (String.eqb k k') eqn:E; simpl.
    + rewrite E. reflexivity.
    + rewrite E. exact IH.
Qed.

Lemma lookup_set_neq (k k' : string) (v : json) (d : dict) :
  k <> k' -> lookup k' (dict_set k v d) = lookup k' d.
Proof.
  intro Hne. induction d as [|[k0 v0] r IH]; simpl.
  - destruct (String.eqb k' k) eqn:E; [|reflexivity].
    apply String.eqb_eq in E. congruence.
  - destruct (String.eqb k k0) eqn:E; simpl.
    + apply String.eqb_eq in E. subst k0.
      destruct (String.eqb k' k) eqn:E'; [|reflexivity].
      apply String.eqb_eq in E'. congruence.
    + rewrite IH. reflexivity.
Qed.

Lemma lookup_set (k k' : string) (v : json) (d : dict) :
  lookup k' (dict_set k v d) = if String.eqb k' k then Some v else lookup k' d.
Proof.
  destruct (String.eqb k' k) eqn:E.
  - apply String.eqb_eq in E. subst. apply lookup_set_eq.
  - apply lookup_set_neq. intro H. subst. rewrite String.eqb_refl in E. discriminate.
Qed.

Lemma set_lookup_same (k : string) (v : json) (d : dict) :
  lookup k d = Some v -> dict_set k v d = d.
Proof.
  induction d as [|[k' v'] r IH]; simpl; [discriminate|].
  destruct (String.eqb k k') eqn:E.
  - intro H. inversion H; subst. reflexivity.
  - intro H. rewrite (IH H). reflexivity.
Qed.

Lemma lookup_In (k : string) (v : json) (d : dict) : lookup k d = Some v -> In (k, v) d.
Proof.
  induction d as [|[k' v'] r IH]; simpl; [discriminate|].
  destruct (String.eqb k k') eqn:E.
  - intro H. inversion H; subst. apply String.eqb_eq in E. subst. left. reflexivity.
  - intro H. right. exact (IH H).
Qed.

Lemma extends_obj_iff (ad bd : dict) :
  extends (JObj ad) (JObj bd)
  <-> (forall k x, lookup k ad = Some x -> exists y, lookup k bd = Some y /\ extends x y).
Proof.
  simpl.
  match goal with |- ?F ad <-> _ => set (go := F) end.
  assert (G : forall l, go l <-> (forall k x, In (k, x) l -> lookup k ad = Some x ->
                                    exists y, lookup k bd = Some y /\ extends x y)).
  { induction l as [|[k x] r IH].
    - split; [intros _ k x []|intros _; exact I].
    - change (go ((k, x) :: r)) with
        ((lookup k ad = Some x -> exists y, lookup k bd = Some y /\ extends x y) /\ go r).
      rewrite IH. split.
      + intros [H1 H2] k' x' [Heq|Hin]; [inversion Heq; subst; exact H1|exact (H2 k' x' Hin)].
      + intro H. split; [apply H; left; reflexivity|].
        intros k' x' Hin. apply H. right. exact Hin. }
  rewrite G. split.
  - intros H k x Hl. exact (H k x (lookup_In _ _ _ Hl) Hl).
  - intros H k x _ Hl. exact (H k x Hl).
Qed.

Lemma extends_not_obj (a b : json) :
  (forall d, a <> JObj d) -> extends a b <-> b = a.
Proof. intro H. destruct a; simpl; try tauto. exfalso. exact (H d eq_refl). Qed.

Lemma extends_refl (j : json) : extends j j.
Proof.
  induction j using json_ind_nested; try reflexivity.
  apply extends_obj_iff. intros k x Hl. exists x. split; [exact Hl|].
  rewrite Forall_forall in H. exact (H (k, x) (lookup_In _ _ _ Hl)).
Qed.

Lemma extends_trans (a b c : json) : extends a b -> extends b c -> extends a c.
Proof.
  revert b c.
  induction a as [|bo|q|st|l _|ad IH] using json_ind_nested; intros u w Hab Hbc;
    try (simpl in Hab; subst u; exact Hbc).
  destruct u as [| | | | |bd]; try contradiction.
  destruct w as [| | | | |cd]; try contradiction.
  rewrite extends_obj_iff in Hab, Hbc |- *.
  intros k x Hx. destruct (Hab k x Hx) as [y [Hy Hxy]].
  destruct (Hbc k y Hy) as [z [Hz Hyz]].
  exists z. split; [exact Hz|].
  rewrite Forall_forall in IH. exact (IH (k, x) (lookup_In _ _ _ Hx) y z Hxy Hyz).
Qed.

Lemma extends_set (k : string) (m : json) (cd : dict) :
  (forall v, lookup k cd = Some v -> extends v m) ->
  extends (JObj cd) (JObj (dict_set k m cd)).
Proof.
  intro H. apply extends_obj_iff. intros k' x Hx.
  rewrite lookup_set. destruct (String.eqb k' k) eqn:E.
  - apply String.eqb_eq in E. subst k'. exists m. split; [reflexivity|exact (H x Hx)].
  - exists x. split; [exact Hx|apply extends_refl].
Qed.

(** One merge step of the loop of [update_dict_recursive] with [reset=False]
    keeps the value of a key already present. *)
Lemma leaf_value_kept (k : string) (dv : json) (cd : dict) :
  dict_set k (match lookup k cd with Some v => v | None => dv end) cd
  = match lookup k cd with Some _ => cd | None => dict_set k dv cd end.
Proof.
  destruct (lookup k cd) eqn:E; [apply set_lookup_same; exact E|reflexivity].
Qed.

Lemma update_value_extends (d c r : json) :
  update_value c d false = Some r -> extends c r.
Proof.
  revert c r.
  induction d as [|bo|q|st|l _|dd IH] using json_ind_nested; intros c r H;
    try (simpl in H; inversion H; subst; apply extends_refl).
  simpl in H. revert c H.
  induction dd as [|[k dv] rest IHrest]; intros c H.
  - inversion H; subst. apply extends_refl.
  - inversion IH as [|? ? IHdv IHtl]; subst. simpl in IHdv.
    destruct c as [| | | | |cd]; try discriminate.
    destruct dv as [| | | | |d0];
      try (eapply extends_trans; [|exact (IHrest IHtl _ H)];
           apply extends_set; intros v Hv; rewrite Hv; apply extends_refl).
    destruct (update_value (match lookup k cd with Some v => v | None => JObj [] end)
                (JObj d0) false) as [m|] eqn:U; [|discriminate].
    eapply extends_trans; [|exact (IHrest IHtl _ H)].
    apply extends_set. intros v Hv. apply IHdv. rewrite Hv in U. exact U.
Qed.

Lemma complete_fixed (d j : json) : complete j d -> update_value j d false = Some j.
Proof.
  revert j.
  induction d as [|bo|q|st|l _|dd IH] using json_ind_nested; intros j Hc; try reflexivity.
  simpl in Hc |- *. induction dd as [|[k dv] rest IHrest]; [reflexivity|].
  inversion IH as [|? ? IHdv IHtl]; subst. simpl in IHdv.
  destruct j as [| | | | |jd]; try contradiction.
  destruct Hc as [[v [Hv Hsub]] Hrest].
  destruct dv as [| | | | |d0];
    try (rewrite Hv, (set_lookup_same _ _ _ Hv); exact (IHrest IHtl Hrest)).
  rewrite Hv, (IHdv v Hsub), (set_lookup_same _ _ _ Hv). exact (IHrest IHtl Hrest).
Qed.

Lemma complete_mono (d j j' : json) : extends j j' -> complete j d -> complete j' d.
Proof.
  revert j j'.
  induction d as [|bo|q|st|l _|dd IH] using json_ind_nested; intros j j' He Hc;
    try exact I.
  simpl in Hc |- *. induction dd as [|[k dv] rest IHrest]; [exact I|].
  inversion IH as [|? ? IHdv IHtl]; subst. simpl in IHdv.
  destruct j as [| | | | |jd]; try contradiction.
  destruct j' as [| | | | |jd']; try contradiction.
  destruct Hc as [[v [Hv Hsub]] Hrest].
  split; [|exact (IHrest IHtl Hrest)].
  rewrite extends_obj_iff in He. destruct (He k v Hv) as [v' [Hv' Hvv']].
  exists v'. split; [exact Hv'|].
  destruct dv; try exact I. exact (IHdv v v' Hvv' Hsub).
Qed.

Lemma update_value_complete (d c r : json) :
  update_value c d false = Some r -> complete r d.
Proof.
  revert c r.
  induction d as [|bo|q|st|l _|dd IH] using json_ind_nested; intros c r H; try exact I.
  simpl in H |- *. revert c H.
  induction dd as [|[k dv] rest IHrest]; intros c H; [exact I|].
  inversion IH as [|? ? IHdv IHtl]; subst. simpl in IHdv.
  destruct c as [| | | | |cd]; try discriminate.
  assert (Hkey : forall m, (forall v, (match dv with JObj _ => complete m dv | _ => True end) ->
                              extends m v -> match dv with JObj _ => complete v dv | _ => True end) ->
            (match dv with JObj _ => complete m dv | _ => True end) ->
            (fix go (config : json) (items : dict) {struct items} : option json :=
               match items with
               | [] => Some config
               | (default_key, default_value) :: rest0 =>
                 match config with
                 | JObj cd0 =>
                   match default_value with
                   | JObj _ =>
                     match update_value (match lookup default_key cd0 with
                                         | Some v => v | None => JObj [] end)
                             default_value false with
                     | None => None
                     | Some merged => go (JObj (dict_set default_key merged cd0)) rest0
                     end
                   | _ =>
                     go (JObj (dict_set default_key
                                 (match lookup default_key cd0 with
                                  | Some v => v | None => default_value end) cd0)) rest0
                   end
                 | _ => None
                 end
               end) (JObj (dict_set k m cd)) rest = Some r ->
            match r with
            | JObj jd =>
              (exists v, lookup k jd = Some v
                         /\ match dv with JObj _ => complete v dv | _ => True end)
              /\ complete r (JObj rest)
            | _ => False
            end).
  { intros m Hmono Hm Hgo.
    pose proof (update_value_extends (JObj rest) _ _ Hgo) as He.
    pose proof (IHrest IHtl _ Hgo) as Hr.
    destruct r as [| | | | |rd]; try contradiction.
    split; [|exact Hr].
    rewrite extends_obj_iff in He.
    destruct (He k m (lookup_set_eq _ _ _)) as [v [Hv Hmv]].
    exists v. split; [exact Hv|]. exact (Hmono v Hm Hmv). }
  destruct dv as [| | | | |d0];
    try (apply (Hkey _ (fun _ _ _ => I) I H)).
  destruct (update_value (match lookup k cd with Some v => v | None => JObj [] end)
              (JObj d0) false) as [m|] eqn:U; [|discriminate].
  apply (Hkey m).
  - intros v Hm Hmv. exact (complete_mono (JObj d0) m v Hmv Hm).
  - exact (IHdv _ _ U).
  - exact H.
Qed.

Lemma lookup_notin (k : string) (d : dict) : ~ In k (map fst d) -> lookup k d = None.
Proof.
  induction d as [|[k' v] r IH]; simpl; [reflexivity|].
  intro Hn. destruct (String.eqb k k') eqn:E.
  - apply String.eqb_eq in E. subst. exfalso. apply Hn. left. reflexivity.
  - apply IH. intro Hi. apply Hn. right. exact Hi.
Qed.

Lemma update_value_lookup (dd cd : dict) (reset : bool) (res : json) :
  NoDup (map fst dd) ->
  update_value (JObj cd) (JObj dd) reset = Some res ->
  exists rd, res = JObj rd /\ forall k, lookup k rd = merged_at cd dd reset k.
Proof.
  simpl. revert cd.
  induction dd as [|[k0 dv] rest IHrest]; intros cd Hnd H.
  - inversion H; subst. exists cd. split; [reflexivity|].
    intro k. reflexivity.
  - simpl in Hnd. inversion Hnd as [|? ? Hk0 Hnd']; subst.
    assert (Hstep : forall m, (dv = JObj [] \/ True) ->
              (forall k, k <> k0 -> merged_at (dict_set k0 m cd) rest reset k
                                    = merged_at cd ((k0, dv) :: rest) reset k) ->
              Some m = merged_at cd ((k0, dv) :: rest) reset k0 ->
              (fix go (config : json) (items : dict) {struct items} : option json :=
                 match items with
                 | [] => Some config
                 | (default_key, default_value) :: rest0 =>
                   match config with
                   | JObj cd0 =>
                     match default_value with
                     | JObj _ =>
                       match update_value (match lookup default_key cd0 with
                                           | Some v => v | None => JObj [] end)
                               default_value false with
                       | None => None
                       | Some merged => go (JObj (dict_set default_key merged cd0)) rest0
                       end
                     | _ =>
                       go (JObj (dict_set default_key
                                   (if reset then default_value
                                    else match lookup default_key cd0 with
                                         | Some v => v | None => default_value end) cd0)) rest0
                     end
                   | _ => None
                   end
                 end) (JObj (dict_set k0 m cd)) rest = Some res ->
              exists rd, res = JObj rd
                         /\ forall k, lookup k rd = merged_at cd ((k0, dv) :: rest) reset k).
    { intros m _ Hother Hk0m Hgo.
      destruct (IHrest (dict_set k0 m cd) Hnd' Hgo) as [rd [Hres Hrd]].
      exists rd. split; [exact Hres|]. intro k. rewrite Hrd.
      destruct (String.eqb k k0) eqn:E.
      - apply String.eqb_eq in E. subst k. rewrite <- Hk0m.
        unfold merged_at. rewrite (lookup_notin k0 rest Hk0), lookup_set_eq. reflexivity.
      - apply Hother. intro Heq. subst. rewrite String.eqb_refl in E. discriminate. }
    assert (Hother : forall m k, k <> k0 -> merged_at (dict_set k0 m cd) rest reset k
                                         = merged_at cd ((k0, dv) :: rest) reset k).
    { intros m k Hne. unfold merged_at. simpl.
      assert (Ek : String.eqb k k0 = false)
        by (destruct (String.eqb k k0) eqn:E; [apply String.eqb_eq in E; congruence|reflexivity]).
      rewrite Ek, (lookup_set_neq k0 k m cd (fun h => Hne (eq_sym h))). reflexivity. }
    destruct dv as [| | | | |d0];
      try (eapply Hstep; [right; exact I|apply Hother| |exact H];
           unfold merged_at; simpl; rewrite String.eqb_refl; reflexivity).
    destruct (update_value (match lookup k0 cd with Some v => v | None => JObj [] end)
                (JObj d0) false) as [m|] eqn:U; [|discriminate].
    eapply Hstep; [right; exact I|apply Hother| |exact H].
    unfold merged_at. cbn [lookup]. rewrite String.eqb_refl.
    unfold update_dict_recursive. rewrite U. reflexivity.
Qed.

Lemma load_config_default_nodup : NoDup (map fst load_config_default).
Proof.
  simpl. repeat constructor; simpl; intro Hin;
    repeat (destruct Hin as [Hin|Hin]; [discriminate Hin|]); exact Hin.
Qed.

(** C4: merging a stored document with the fixed defaults of [load_config]
    with [reset=False] (i) keeps every key of the document, with the same
    value where it is not an object and an extended object where it is (so
    keys the defaults lack, such as [device_name], survive unchanged); (ii)
    gives each top-level key the value [merged_at]: the stored value where
    the defaults have no entry or a non-object entry and the document has the
    key, the default where the document lacks it, and for an object default
    the recursive merge of the stored object (or of [{}]) with it, key by
    key; (iii) is idempotent. *)
Theorem update_dict_recursive_merge (c r : json) :
  update_dict_recursive c load_config_default false = Some r ->
  extends c r
  /\ (exists cd rd, c = JObj cd /\ r = JObj rd
                    /\ forall k, lookup k rd = merged_at cd load_config_default false k)
  /\ update_dict_recursive r load_config_default false = Some r.
Proof.
  unfold update_dict_recursive. intro H.
  split; [exact (update_value_extends _ _ _ H)|].
  split.
  - destruct c as [| | | | |cd]; try discriminate.
    destruct (update_value_lookup load_config_default cd false r load_config_default_nodup H)
      as [rd [Hr Hrd]].
    exists cd, rd. split; [reflexivity|]. split; [exact Hr|exact Hrd].
  - apply complete_fixed. exact (update_value_complete _ _ _ H).
Qed.

Lemma update_dict_recursive_merge_witness :
  exists r, update_dict_recursive stored_sample load_config_default false = Some r
            /\ extends stored_sample r
            /\ update_dict_recursive r load_config_default false = Some r.
Proof.
  eexists. split; [reflexivity|].
  pose proof (update_dict_recursive_merge stored_sample _ eq_refl) as [H1 [_ H3]].
  split; [exact H1|exact H3].
Defined.

(* ------------------------------------------------------------------------- *)
(** ** Saving *)

(** C5 (as stated, refuted): [save_config] is not all-or-nothing.  Saving a
    document over a previously persisted one passes through a file state
    that is neither the old nor the new text: the empty file left by
    [open(..., mode='w')] before [write]. *)
Lemma C5_save_passes_through_empty_file :
  exists states st,
    save_config (fun _ => "{}"%string) [("off_power"%string, JNum 0)] (Some "{}"%string)
      = Some states
    /\ In st states /\ st = Some EmptyString
    /\ st <> Some "{}"%string.
Proof.
  eexists. exists (Some EmptyString). split; [reflexivity|].
  split; [simpl; right; left; reflexivity|]. split; [reflexivity|discriminate].
Qed.

(** C5 (amended): [save_config] overwrites the file in place.  After the
    deprecated keys are removed, the file goes from its previous state to
    the empty file ([open] with mode ['w'] truncates or creates it) and only
    then to the full dump; a crash between the two leaves the empty file,
    not the previously persisted document.  A completed save leaves exactly
    the dump of the pruned document. *)
Theorem save_config_in_place (json_dumps : json -> string) (cd pruned : dict)
    (before : file_state) :
  prune_deprecated cd = Some pruned ->
  exists states,
    save_config json_dumps cd before = Some states
    /\ hd None states = before
    /\ In (Some EmptyString) states
    /\ last states None = Some (json_dumps (JObj pruned))
    /\ (forall st, In st states -> st = before \/ st = Some EmptyString
                                   \/ st = Some (json_dumps (JObj pruned))).
Proof.
  intro H. unfold save_config. rewrite H.
  eexists. split; [reflexivity|]. simpl.
  split; [reflexivity|]. split; [right; left; reflexivity|]. split; [reflexivity|].
  intros st [E|[E|[E|[]]]]; subst; auto.
Qed.

Lemma save_config_in_place_witness :
  exists states,
    save_config (fun _ => "{}"%string)
      [("off_power"%string, JNum 0); ("min_idle_count"%string, JNum 3)] None = Some states
    /\ In (Some EmptyString) states.
Proof.
  destruct (save_config_in_place (fun _ => "{}"%string)
              [("off_power"%string, JNum 0); ("min_idle_count"%string, JNum 3)]
              [("off_power"%string, JNum 0)] None eq_refl)
    as [states [H1 [_ [H3 _]]]].
  exists states. split; [exact H1|exact H3].
Defined.

(* ------------------------------------------------------------------------- *)
(** ** [print_off] guards *)

(** C6 (as stated, refuted): with a negative [min_runtime] all three guards
    of [print_off] pass, the off-time is advanced, but the [sending_message]
    check ([off.last_sent] not before the new off-time) stops the call: it
    returns False and attempts no send. *)
Lemma C6_negative_min_runtime_no_send :
  let c := cfg_negative_runtime in
  let cur := 799 * day in
  cur - Z.max (time (st_on c)) (time (st_done c)) >= min_runtime c
  /\ cur - time (st_running c) >= min_data_window c
  /\ Z.max (time (st_on c)) (time (st_done c)) > last_sent (st_off c)
  /\ exists c', print_off c cur 7%Q "wms.csv"%string false (fun _ => true) (901 * day)
                = (false, c', [])
                /\ time (st_off c') = cur.
Proof.
  simpl. unfold day, us_per_second. split; [lia|]. split; [lia|]. split; [lia|].
  eexists. split; reflexivity.
Qed.

(** C6 (amended): if the time from [max(on.time, done.time)] to the off-time
    is below [min_runtime], [print_off] returns False, leaves the config
    unchanged and sends nothing.  If it is at least [min_runtime], with
    [min_runtime >= 0] (the default is 20 minutes), the time since
    [running.time] is at least [min_data_window] and [max(on.time, done.time)]
    is later than [off.last_sent], then [print_off] returns True, sets
    [off.time] and [off.power_total] and attempts the send to every target
    configured for Off. *)
Theorem print_off_min_runtime (c : config) (cur : Z) (lt : Q) (csv : string) (sup : bool)
    (ack : send -> bool) (now : Z) (b : bool) (c' : config) (s : list send) :
  print_off c cur lt csv sup ack now = (b, c', s) ->
  (cur - Z.max (time (st_on c)) (time (st_done c)) < min_runtime c ->
   b = false /\ c' = c /\ s = [])
  /\ (cur - Z.max (time (st_on c)) (time (st_done c)) >= min_runtime c ->
      0 <= min_runtime c ->
      cur - time (st_running c) >= min_data_window c ->
      Z.max (time (st_on c)) (time (st_done c)) > last_sent (st_off c) ->
      b = true /\ time (st_off c') = cur /\ power_total (st_off c') = lt
      /\ s = if sup then [] else sends_for (st_off c) (st_done c) (display_name c csv ++ " aus")).
Proof.
  unfold print_off.
  destruct (cur - Z.max (time (st_on c)) (time (st_done c)) <? min_runtime c) eqn:G1.
  { intro H. inversion H; subst. split; [auto|]. intros Hge. apply Z.ltb_lt in G1. lia. }
  intro H. split; [intro Hlt; apply Z.ltb_ge in G1; lia|].
  intros _ Hnn Hdw Hnew.
  destruct (cur - time (st_running c) <? min_data_window c) eqn:G2;
    [apply Z.ltb_lt in G2; lia|].
  destruct (Z.max (time (st_on c)) (time (st_done c)) <=? last_sent (st_off c)) eqn:G3;
    [apply Z.leb_le in G3; lia|].
  apply Z.ltb_ge in G1.
  assert (G4 : year_is_1 (last_sent (st_off c)) || (last_sent (st_off c) <? cur) = true).
  { apply orb_true_iff. right. apply Z.ltb_lt. lia. }
  simpl in H. rewrite G4 in H. simpl in H.
  destruct sup.
  - injection H as Hb Hc Hs. subst. simpl. repeat split; reflexivity.
  - destruct (deliver ack _); injection H as Hb Hc Hs; subst; simpl;
      repeat split; reflexivity.
Qed.

Lemma print_off_min_runtime_witness :
  (exists c' s,
     print_off cfg_after_run (900 * day + 25 * minute) 7%Q "wms.csv"%string false
       (fun _ => true) (901 * day) = (true, c', s)
     /\ time (st_off c') = 900 * day + 25 * minute /\ s <> [])
  /\ (exists c' s,
     print_off cfg_after_run (900 * day + 5 * minute) 7%Q "wms.csv"%string false
       (fun _ => true) (901 * day) = (false, c', s) /\ c' = cfg_after_run /\ s = []).
Proof.
  split.
  - destruct (print_off cfg_after_run (900 * day + 25 * minute) 7%Q "wms.csv"%string false
                (fun _ => true) (901 * day)) as [[b c'] s] eqn:E.
    destruct (proj2 (print_off_min_runtime _ _ _ _ _ _ _ _ _ _ E)) as [Hb [Ht [_ Hs]]];
      try (simpl; unfold day, minute, us_per_second; lia).
    subst b. exists c', s. split; [reflexivity|]. split; [exact Ht|].
    rewrite Hs. simpl. discriminate.
  - destruct (print_off cfg_after_run (900 * day + 5 * minute) 7%Q "wms.csv"%string false
                (fun _ => true) (901 * day)) as [[b c'] s] eqn:E.
    destruct (proj1 (print_off_min_runtime _ _ _ _ _ _ _ _ _ _ E)) as [Hb [Hc Hs]];
      [simpl; unfold day, minute, us_per_second; lia|].
    subst b. exists c', s. split; [reflexivity|]. split; [exact Hc|exact Hs].
Defined.

(** C10 (as stated, refuted): passing the three guards of [print_off] does
    not make it return True when the delivery fails: with a negative
    [min_runtime] the [sending_message] check returns False first, without
    any send and without resetting [re_remind_counter]. *)
Lemma C10_guards_pass_but_returns_false :
  let c := set_counter 3 cfg_negative_runtime in
  let cur := 799 * day in
  cur - Z.max (time (st_on c)) (time (st_done c)) >= min_runtime c
  /\ cur - time (st_running c) >= min_data_window c
  /\ Z.max (time (st_on c)) (time (st_done c)) > last_sent (st_off c)
  /\ exists c', print_off c cur 7%Q "wms.csv"%string false (fun _ => false) (901 * day)
                = (false, c', [])
                /\ re_remind_counter c' = Some 3.
Proof.
  simpl. unfold day, us_per_second. split; [lia|]. split; [lia|]. split; [lia|].
  eexists. split; reflexivity.
Qed.

(** C10 (amended): when [print_off] passes its three guards with
    [min_runtime >= 0] and the delivery fails (some attempted send, in
    particular every one, is not acknowledged), it still sets [off.time] and
    [off.power_total], resets [re_remind_counter] to 0 and returns True; only
    [off.last_sent] keeps its value. *)
Theorem print_off_failed_delivery (c : config) (cur : Z) (lt : Q) (csv : string) (sup : bool)
    (ack : send -> bool) (now : Z) (b : bool) (c' : config) (s : list send) :
  print_off c cur lt csv sup ack now = (b, c', s) ->
  cur - Z.max (time (st_on c)) (time (st_done c)) >= min_runtime c ->
  0 <= min_runtime c ->
  cur - time (st_running c) >= min_data_window c ->
  Z.max (time (st_on c)) (time (st_done c)) > last_sent (st_off c) ->
  forallb ack s = false ->
  b = true /\ time (st_off c') = cur /\ power_total (st_off c') = lt
  /\ re_remind_counter c' = Some 0 /\ last_sent (st_off c') = last_sent (st_off c).
Proof.
  intros H Hrt Hnn Hdw Hnew Hfail. unfold print_off in H.
  destruct (cur - Z.max (time (st_on c)) (time (st_done c)) <? min_runtime c) eqn:G1;
    [apply Z.ltb_lt in G1; lia|].
  destruct (cur - time (st_running c) <? min_data_window c) eqn:G2;
    [apply Z.ltb_lt in G2; lia|].
  destruct (Z.max (time (st_on c)) (time (st_done c)) <=? last_sent (st_off c)) eqn:G3;
    [apply Z.leb_le in G3; lia|].
  assert (G4 : year_is_1 (last_sent (st_off c)) || (last_sent (st_off c) <? cur) = true).
  { apply orb_true_iff. right. apply Z.ltb_lt. lia. }
  simpl in H. rewrite G4 in H. simpl in H.
  destruct sup.
  - injection H as Hb Hc Hs. subst s. discriminate.
  - rewrite deliver_forallb in H.
    destruct (forallb ack _) eqn:D; injection H as Hb Hc Hs; subst s.
    + rewrite D in Hfail. discriminate.
    + subst. simpl. repeat split; reflexivity.
Qed.

Lemma print_off_failed_delivery_witness :
  exists c' s,
    print_off cfg_after_run (900 * day + 25 * minute) 7%Q "wms.csv"%string false
      (fun _ => false) (901 * day) = (true, c', s)
    /\ re_remind_counter c' = Some 0
    /\ last_sent (st_off c') = last_sent (st_off cfg_after_run).
Proof.
  destruct (print_off cfg_after_run (900 * day + 25 * minute) 7%Q "wms.csv"%string false
              (fun _ => false) (901 * day)) as [[b c'] s] eqn:E.
  destruct (print_off_failed_delivery _ _ _ _ _ _ _ _ _ _ E) as [Hb [_ [_ [Hk Hl]]]];
    try (simpl; unfold day, minute, us_per_second; lia).
  - assert (Hs : s <> []).
    { intro Hs. subst s. vm_compute in E. discriminate. }
    destruct s as [|x r]; [congruence|]. reflexivity.
  - subst b. exists c', s. split; [reflexivity|]. split; [exact Hk|exact Hl].
Defined.

(* ------------------------------------------------------------------------- *)
(** ** [fib] against the Fibonacci numbers *)

Definition fib_matches_upto (n : nat) : bool :=
  forallb (fun i => match fib (Z.of_nat i) with
                    | Some v => v =? fibonacci i
                    | None => false
                    end) (seq 0 (S n)).

Lemma fib_matches_71 : fib_matches_upto 71 = true.
Proof. vm_compute. reflexivity. Qed.

Lemma fib_matches_spec (n i : nat) :
  fib_matches_upto n = true -> (i <= n)%nat -> fib (Z.of_nat i) = Some (fibonacci i).
Proof.
  unfold fib_matches_upto. intros H Hi. rewrite forallb_forall in H.
  specialize (H i ltac:(apply in_seq; lia)).
  destruct (fib (Z.of_nat i)) as [v|]; [|discriminate].
  apply Z.eqb_eq in H. congruence.
Qed.

(** C9: the binary64 [fib] gives the standard Fibonacci sequence for small
    arguments: [fib 0] is 0 and [fib 1], [fib 2], ... are 1, 1, 2, 3, 5, 8,
    13, ..., the n-th Fibonacci number for every n up to 71; at 72 the
    rounding errors lift the quotient past the next integer and [fib 72] is
    one more than the Fibonacci number. *)
Theorem fib_standard_sequence :
  (forall n : nat, (n <= 71)%nat -> fib (Z.of_nat n) = Some (fibonacci n))
  /\ map fib [1; 2; 3; 4; 5; 6; 7] = map Some [1; 1; 2; 3; 5; 8; 13]
  /\ fib 0 = Some 0
  /\ fib 72 = Some (fibonacci 72 + 1).
Proof.
  split; [intros n Hn; exact (fib_matches_spec 71 n fib_matches_71 Hn)|].
  split; [vm_compute; reflexivity|].
  split; vm_compute; reflexivity.
Qed.

Lemma fib_standard_sequence_witness : (10 <= 71)%nat /\ fib 10 = Some (fibonacci 10).
Proof. split; [lia|]. apply (proj1 fib_standard_sequence 10%nat). lia. Defined.

(* ------------------------------------------------------------------------- *)
(** ** The re-remind wait *)

Lemma re_remind_wait_small (k : Z) : 0 <= k <= 4 -> re_remind_wait k = Some 300.
Proof.
  intro Hk.
  assert (E : k = 0 \/ k = 1 \/ k = 2 \/ k = 3 \/ k = 4) by lia.
  destruct E as [->|[->|[->|[->| ->]]]]; vm_compute; reflexivity.
Qed.

(** A wait that passes the [>=] test of a reachable state is within
    [timedelta]'s range. *)
Lemma timedelta_seconds_in_range (w cur ls : Z) :
  0 <= w -> 0 <= ls -> cur <= datetime_max -> w * us_per_second <= cur - ls ->
  timedelta_seconds w = Some (w * us_per_second).
Proof.
  intros Hw Hls Hcur Hle. unfold timedelta_seconds, datetime_max, us_per_second in *.
  replace (999999999 <? Z.abs (w / 86400)) with false; [reflexivity|].
  symmetry. apply Z.ltb_ge. rewrite Z.abs_eq by (apply Z.div_pos; lia).
  apply Z.div_le_upper_bound; lia.
Qed.

(** C8: for counters 0 to 4 the wait [max(300, fib(counter))] is
    non-decreasing and at least 300 seconds (it is at least 300 for every
    counter whose [fib] does not raise); when the Done notification was
    already sent after the last On or Off, [print_done] sends again only with
    [re_remind] on, the counter present and at least that many seconds since
    [done.last_sent]; and under those conditions, with the runtime guards
    passed and both times valid datetimes, it does send. *)
Theorem re_remind_wait_monotone_and_forcing :
  (forall i j, 0 <= i -> i <= j -> j <= 4 ->
     exists wi wj, re_remind_wait i = Some wi /\ re_remind_wait j = Some wj
                   /\ 300 <= wi <= wj)
  /\ (forall k w, re_remind_wait k = Some w -> 300 <= w)
  /\ (forall c cur lt csv sup ack now c' s,
        print_done c cur lt csv sup ack now = Some (true, c', s) ->
        Z.max (time (st_on c)) (time (st_off c)) <= last_sent (st_done c) ->
        re_remind c = true
        /\ exists k w, re_remind_counter c = Some k /\ re_remind_wait k = Some w
                       /\ w * us_per_second <= cur - last_sent (st_done c))
  /\ (forall c cur lt csv sup ack now k w,
        min_runtime c <= cur - Z.max (time (st_on c)) (time (st_off c)) ->
        min_data_window c <= cur - time (st_running c) ->
        re_remind c = true ->
        re_remind_counter c = Some k ->
        re_remind_wait k = Some w ->
        datetime_min <= last_sent (st_done c) -> cur <= datetime_max ->
        w * us_per_second <= cur - last_sent (st_done c) ->
        exists c' s, print_done c cur lt csv sup ack now = Some (true, c', s)).
Proof.
  split; [|split; [|split]].
  - intros i j Hi Hij Hj. exists 300, 300.
    rewrite (re_remind_wait_small i), (re_remind_wait_small j) by lia.
    split; [reflexivity|]. split; [reflexivity|lia].
  - intros k w Hw. unfold re_remind_wait in Hw.
    destruct (fib k); [|discriminate]. injection Hw as <-. apply Z.le_max_l.
  - intros c cur lt csv sup ack now c' s E Hle.
    unfold print_done in E.
    destruct (cur - _ <? min_runtime c); [discriminate|].
    destruct (cur - _ <? min_data_window c); [discriminate|].
    destruct (re_remind_now_of c cur) as [rn|] eqn:R; [|discriminate].
    apply Z.leb_le in Hle. rewrite Hle in E. simpl in E.
    destruct rn; [|discriminate].
    unfold re_remind_now_of in R.
    destruct (re_remind c); [|discriminate].
    destruct (re_remind_counter c) as [k|]; [|discriminate].
    destruct (re_remind_wait k) as [w|] eqn:Ew; [|discriminate].
    unfold timedelta_seconds in R.
    destruct (999999999 <? Z.abs (w / 86400)); [discriminate|].
    injection R as R. apply Z.leb_le in R.
    split; [reflexivity|]. exists k, w. split; [reflexivity|]. split; [exact Ew|exact R].
  - intros c cur lt csv sup ack now k w H1 H2 Hr Hk Hwk Hls Hcur Hw.
    unfold print_done.
    replace (cur - _ <? min_runtime c) with false by (symmetry; apply Z.ltb_ge; lia).
    replace (cur - _ <? min_data_window c) with false by (symmetry; apply Z.ltb_ge; lia).
    assert (R : re_remind_now_of c cur = Some true).
    { unfold re_remind_now_of. rewrite Hr, Hk, Hwk.
      assert (Hw0 : 300 <= w).
      { unfold re_remind_wait in Hwk. destruct (fib k); [|discriminate].
        injection Hwk as <-. apply Z.le_max_l. }
      unfold datetime_min in Hls.
      rewrite (timedelta_seconds_in_range w cur (last_sent (st_done c))) by lia.
      f_equal. apply Z.leb_le. exact Hw. }
    rewrite R, andb_false_r, Hk. cbv zeta. rewrite !orb_true_r. simpl negb.
    cbv iota. eexists. eexists. reflexivity.
Qed.

Lemma re_remind_wait_monotone_and_forcing_witness :
  (exists wi wj, re_remind_wait 0 = Some wi /\ re_remind_wait 4 = Some wj /\ 300 <= wi <= wj)
  /\ (exists c' s,
        print_done cfg_done_sent (900 * day + 70 * minute) 7%Q "wms.csv"%string false
          (fun _ => true) (901 * day) = Some (true, c', s))
  /\ re_remind cfg_done_sent = true.
Proof.
  destruct re_remind_wait_monotone_and_forcing as [Hmono [_ [Honly Hforce]]].
  assert (Hsend : exists c' s,
             print_done cfg_done_sent (900 * day + 70 * minute) 7%Q "wms.csv"%string false
               (fun _ => true) (901 * day) = Some (true, c', s)).
  { apply (Hforce cfg_done_sent (900 * day + 70 * minute) 7%Q "wms.csv"%string false
             (fun _ => true) (901 * day) 2 300).
    - vm_compute. discriminate.
    - vm_compute. discriminate.
    - reflexivity.
    - reflexivity.
    - apply re_remind_wait_small. lia.
    - vm_compute. discriminate.
    - vm_compute. discriminate.
    - vm_compute. discriminate. }
  split; [apply (Hmono 0 4); lia|].
  split; [exact Hsend|].
  destruct Hsend as [c' [s E]].
  apply (proj1 (Honly _ _ _ _ _ _ _ _ _ E ltac:(vm_compute; discriminate))).
Defined.

(* ------------------------------------------------------------------------- *)
(** ** The re-remind counter *)

Lemma print_on_counter c t csv lt sup ack now b c' s :
  print_on c t csv lt sup ack now = (b, c', s) ->
  re_remind_counter c' = if b then Some 0 else re_remind_counter c.
Proof.
  unfold print_on. intro E.
  destruct (t <=? last_sent (st_on c)); [injection E as <- <- <-; reflexivity|].
  destruct (_ <=? last_sent (st_on c)); [injection E as <- <- <-; reflexivity|].
  injection E as <- <- <-. reflexivity.
Qed.

Lemma print_off_counter c t lt csv sup ack now b c' s :
  print_off c t lt csv sup ack now = (b, c', s) ->
  re_remind_counter c' = if b then Some 0 else re_remind_counter c.
Proof.
  unfold print_off. intro E.
  destruct (_ <? min_runtime c); [injection E as <- <- <-; reflexivity|].
  destruct (_ <? min_data_window c); [injection E as <- <- <-; reflexivity|].
  destruct (_ <=? last_sent (st_off c)); [injection E as <- <- <-; reflexivity|].
  cbv zeta in E.
  destruct (negb _); [injection E as <- <- <-; reflexivity|].
  injection E as <- <- <-. reflexivity.
Qed.

Lemma print_done_counter c t lt csv sup ack now b c' s :
  print_done c t lt csv sup ack now = Some (b, c', s) ->
  re_remind_counter c' =
    if b && forallb ack s then option_map (fun k => k + 1) (re_remind_counter c)
    else re_remind_counter c.
Proof.
  unfold print_done. intro E.
  destruct (_ <? min_runtime c); [injection E as <- <- <-; reflexivity|].
  destruct (_ <? min_data_window c); [injection E as <- <- <-; reflexivity|].
  destruct (re_remind_now_of c t) as [rn|]; [|discriminate].
  destruct (_ && negb rn); [injection E as <- <- <-; reflexivity|].
  case_eq (re_remind_counter c); [intros k K | intro K]; rewrite K in E; [|discriminate].
  cbv zeta in E.
  destruct (negb _).
  - injection E as <- <- <-. destruct (k =? 0); simpl; exact K.
  - injection E as <- <- <-. destruct sup.
    + reflexivity.
    + rewrite deliver_forallb. simpl andb.
      destruct (forallb ack _); [reflexivity|].
      destruct (k =? 0); simpl; exact K.
Qed.

(** C7 (as stated, refuted): the first Done notification of a run, which is
    not a re-remind ([re_remind] is off, so [re_remind_now] is false), moves
    the counter from 0 to 1 once it is delivered. *)
Lemma C7_first_done_increments :
  re_remind_now_of cfg_after_run (900 * day + 60 * minute) = Some false
  /\ re_remind_counter cfg_after_run = Some 0
  /\ exists c' s,
       print_done cfg_after_run (900 * day + 60 * minute) 7%Q "wms.csv"%string false
         (fun _ => true) (901 * day) = Some (true, c', s)
       /\ re_remind_counter c' = Some 1.
Proof.
  split; [reflexivity|]. split; [reflexivity|].
  eexists. eexists. split; reflexivity.
Qed.

(** C7 (amended): after one tick of [check_status] the counter is [0] when
    the tick classified Running or an On or Off notification path completed
    (returned true, whatever the acknowledgements); it is the old counter
    plus one when [print_done] completed and every attempted send was
    acknowledged (the first Done notification included); otherwise it is
    unchanged. *)
Theorem re_remind_counter_tick c csv pl tl te ltp llt sup ack now c' f s :
  check_status_tick c csv pl tl te ltp llt sup ack now = Some (c', f, s) ->
  re_remind_counter c' =
    if sent_running f || sent_on f || sent_off f then Some 0
    else if sent_done f && forallb ack s
         then option_map (fun k => k + 1) (re_remind_counter c)
         else re_remind_counter c.
Proof.
  unfold check_status_tick. intro E.
  destruct (classify (off_power c) (max_idle_power c) pl) as [r|]; [|discriminate].
  destruct r.
  - destruct (print_on c tl csv llt sup ack now) as [[b c1] s1] eqn:P.
    injection E as <- <- <-. simpl. rewrite (print_on_counter _ _ _ _ _ _ _ _ _ _ P).
    destruct b; reflexivity.
  - cbv zeta in E. destruct (_ && _).
    + destruct (print_on _ tl csv llt sup ack now) as [[b c1] s1] eqn:P.
      injection E as <- <- <-. simpl. rewrite (print_on_counter _ _ _ _ _ _ _ _ _ _ P).
      destruct b; reflexivity.
    + injection E as <- <- <-. reflexivity.
  - destruct (print_off c te ltp csv sup ack now) as [[b c1] s1] eqn:P.
    injection E as <- <- <-. simpl. rewrite (print_off_counter _ _ _ _ _ _ _ _ _ _ P).
    destruct b; reflexivity.
  - destruct (print_done c te ltp csv sup ack now) as [[[b c1] s1]|] eqn:P; [|discriminate].
    injection E as <- <- <-. simpl. exact (print_done_counter _ _ _ _ _ _ _ _ _ _ P).
  - injection E as <- <- <-. reflexivity.
Qed.

Lemma re_remind_counter_tick_witness :
  exists c' f s,
    check_status_tick cfg_after_run "wms.csv"%string [1; 1; 1]%Q
      (900 * day + 60 * minute) (900 * day + 60 * minute) 7%Q 7%Q false
      (fun _ => true) (901 * day) = Some (c', f, s)
    /\ sent_done f = true
    /\ re_remind_counter c' = Some 1.
Proof.
  destruct (check_status_tick cfg_after_run "wms.csv"%string [1; 1; 1]%Q
              (900 * day + 60 * minute) (900 * day + 60 * minute) 7%Q 7%Q false
              (fun _ => true) (901 * day)) as [[[c' f] s]|] eqn:E.
  - pose proof (re_remind_counter_tick _ _ _ _ _ _ _ _ _ _ _ _ _ E) as H.
    exists c', f, s. split; [reflexivity|].
    vm_compute in E. injection E as _ Ef Es.
    split; [rewrite <- Ef; reflexivity|].
    rewrite H, <- Ef, <- Es. reflexivity.
  - vm_compute in E. discriminate.
Defined.

(* ------------------------------------------------------------------------- *)
(** ** A missing [re_remind_counter] *)

(** X3: With no [re_remind_counter] key (a configuration created by
    [load_config], before any Running tick or On/Off notification),
    [print_done] raises [KeyError] exactly when it gets past the runtime and
    data-window guards and either the Done notification is still due (its
    [last_sent] is before the last On/Off) or [re_remind] is on. *)
Theorem print_done_missing_counter (c : config) (cur : Z) (lt : Q) (csv : string)
    (sup : bool) (ack : send -> bool) (now : Z) :
  re_remind_counter c = None ->
  (print_done c cur lt csv sup ack now = None
   <-> min_runtime c <= cur - Z.max (time (st_on c)) (time (st_off c))
       /\ min_data_window c <= cur - time (st_running c)
       /\ (last_sent (st_done c) < Z.max (time (st_on c)) (time (st_off c))
           \/ re_remind c = true)).
Proof.
  intro Hk. unfold print_done, re_remind_now_of. rewrite Hk.
  destruct (cur - Z.max (time (st_on c)) (time (st_off c)) <? min_runtime c) eqn:E1.
  { apply Z.ltb_lt in E1. split; [discriminate|lia]. }
  apply Z.ltb_ge in E1.
  destruct (cur - time (st_running c) <? min_data_window c) eqn:E2.
  { apply Z.ltb_lt in E2. split; [discriminate|lia]. }
  apply Z.ltb_ge in E2.
  destruct (re_remind c).
  - split; [intros _; split; [exact E1|split; [exact E2|right; reflexivity]]|reflexivity].
  - destruct (Z.max (time (st_on c)) (time (st_off c)) <=? last_sent (st_done c)) eqn:E3;
      simpl.
    + apply Z.leb_le in E3. split; [discriminate|].
      intros [_ [_ [H|H]]]; [lia|discriminate].
    + apply Z.leb_gt in E3. split; [intros _; auto|reflexivity].
Qed.

Lemma print_done_missing_counter_witness :
  print_done (mkConfig 0 5 false None (20 * minute) (54 * us_per_second)
                (sample_stats (900 * day) (900 * day) 1 0 0)
                (sample_stats (800 * day) (800 * day) 1 0 0)
                (sample_stats (600 * day) (600 * day) 1 1 2)
                (sample_stats (900 * day + 10 * minute) datetime_min 0 0 0) None)
    (900 * day + 60 * minute) 7%Q "wms.csv"%string false (fun _ => true) (901 * day) = None.
Proof.
  apply print_done_missing_counter; [reflexivity|].
  simpl. unfold day, minute, us_per_second. lia.
Defined.

(* ------------------------------------------------------------------------- *)
(** ** Done reminders and the todo target *)

Lemma str_app_assoc (a b c : string) : ((a ++ b) ++ c = a ++ (b ++ c))%string.
Proof. induction a as [|x a IH]; simpl; [reflexivity|]. rewrite IH. reflexivity. Qed.

Lemma substring_app_prefix (p q : string) :
  substring 0 (String.length p) (p ++ q) = p.
Proof.
  induction p as [|x p IH]; simpl; [destruct q; reflexivity|]. rewrite IH. reflexivity.
Qed.

Lemma prefix_app (p q : string) : String.prefix p (p ++ q) = true.
Proof. apply String.prefix_correct. apply substring_app_prefix. Qed.

Lemma index_cons (pat s : string) (a : ascii) :
  String.index 0 pat (String a s)
  = if String.prefix pat (String a s) then Some O
    else match String.index 0 pat s with Some n => Some (S n) | None => None end.
Proof. reflexivity. Qed.

Lemma index_app_found (pre pat post : string) :
  String.index 0 pat (pre ++ pat ++ post) <> None.
Proof.
  induction pre as [|a pre IH].
  - change (EmptyString ++ pat ++ post)%string with (pat ++ post)%string.
    destruct (pat ++ post)%string eqn:E.
    + destruct pat; [discriminate|simpl in E; discriminate].
    + rewrite index_cons, <- E, prefix_app. discriminate.
  - change (String a pre ++ pat ++ post)%string with (String a (pre ++ pat ++ post)).
    rewrite index_cons.
    destruct (String.prefix pat (String a (pre ++ pat ++ post))); [discriminate|].
    destruct (String.index 0 pat (pre ++ pat ++ post)); [discriminate|].
    exfalso. apply IH. reflexivity.
Qed.

Lemma done_message_reminder (c : config) (csv : string) (cur k : Z) :
  0 < k -> exists pre post,
    done_message c csv cur true k = (pre ++ "Erinnerung" ++ post)%string.
Proof.
  intro Hk. unfold done_message. apply Z.ltb_lt in Hk. rewrite Hk. simpl andb.
  exists (display_name c csv ++ " Fertig" ++ " seit " ++ fmt_timedelta (cur - time (st_done c))
          ++ newline)%string.
  exists (" Nr. " ++ string_of_Z k)%string.
  rewrite !str_app_assoc. reflexivity.
Qed.

(** X5: A Done reminder (re-sent because the re-remind wait has passed, counter
    above 0) is never sent to the todo target: its text contains
    "Erinnerung". *)
Theorem done_reminder_skips_todo (c c' : config) (cur : Z) (lt : Q) (csv : string)
    (ack : send -> bool) (now k : Z) (s : list send) :
  print_done c cur lt csv false ack now = Some (true, c', s) ->
  re_remind_now_of c cur = Some true ->
  re_remind_counter c = Some k -> 0 < k ->
  Forall (fun x => s_target x <> Todo) s.
Proof.
  intros E Hr Hk Hpos. unfold print_done in E.
  destruct (_ <? min_runtime c); [discriminate|].
  destruct (_ <? min_data_window c); [discriminate|].
  rewrite Hr, andb_false_r, Hk in E. cbv zeta in E. rewrite !orb_true_r in E.
  simpl negb in E. cbv iota in E. injection E as _ Es. subst s. simpl.
  destruct (done_message_reminder (if k =? 0 then upd_done (fun s0 => set_power_total lt
              (set_time cur s0)) c else c) csv cur k Hpos) as [pre [post Hm]].
  rewrite Hm. unfold done_sends.
  destruct (String.index 0 "Erinnerung" (pre ++ "Erinnerung" ++ post)) eqn:Ei.
  - rewrite andb_false_r. unfold send_if. simpl.
    destruct (0 <? n_server_mail _); destruct (0 <? n_jo_private _); simpl;
      repeat constructor; simpl; discriminate.
  - exfalso. exact (index_app_found _ _ _ Ei).
Qed.

Lemma re_remind_now_of_done_sent (cur : Z) :
  re_remind_now_of cfg_done_sent cur
  = Some (300 * us_per_second <=? cur - last_sent (st_done cfg_done_sent)).
Proof.
  unfold re_remind_now_of. cbn [re_remind re_remind_counter cfg_done_sent].
  rewrite (re_remind_wait_small 2) by lia. reflexivity.
Qed.

Lemma done_reminder_skips_todo_witness :
  exists c' s,
    print_done cfg_done_sent (900 * day + 70 * minute) 7%Q "wms.csv"%string false
      (fun _ => true) (901 * day) = Some (true, c', s)
    /\ Forall (fun x => s_target x <> Todo) s.
Proof.
  destruct (print_done cfg_done_sent (900 * day + 70 * minute) 7%Q "wms.csv"%string false
              (fun _ => true) (901 * day)) as [[[b c'] s]|] eqn:E.
  - assert (E' := E). unfold print_done in E'. cbv beta in E'.
    rewrite re_remind_now_of_done_sent in E'. vm_compute in E'.
    injection E' as Eb _ _. subst b.
    exists c', s. split; [reflexivity|].
    apply (done_reminder_skips_todo _ _ _ _ _ _ _ 2 _ E).
    + rewrite re_remind_now_of_done_sent. vm_compute. reflexivity.
    + reflexivity.
    + lia.
  - exfalso. unfold print_done in E. cbv beta in E.
    rewrite re_remind_now_of_done_sent in E. vm_compute in E. discriminate.
Defined.

(* ------------------------------------------------------------------------- *)
(** ** The deprecated keys of [save_config] *)

Open Scope string_scope.

Lemma lookup_delete_neq (k k' : string) (d : dict) :
  k <> k' -> lookup k' (dict_delete k d) = lookup k' d.
Proof.
  intro Hne. induction d as [|[k0 v0] r IH]; simpl; [reflexivity|].
  destruct (String.eqb k k0) eqn:E.
  - apply String.eqb_eq in E. subst k0.
    assert (E' : String.eqb k' k = false) by (apply String.eqb_neq; congruence).
    rewrite E'. reflexivity.
  - simpl. rewrite IH. reflexivity.
Qed.

Lemma lookup_delete_eq (k : string) (d : dict) :
  NoDup (map fst d) -> lookup k (dict_delete k d) = None \/ lookup k d = None.
Proof.
  induction d as [|[k0 v0] r IH]; simpl; intro Hnd; [right; reflexivity|].
  inversion Hnd as [|? ? Hn Hnd']; subst.
  destruct (String.eqb k k0) eqn:E.
  - left. apply String.eqb_eq in E. subst k0. apply lookup_notin. exact Hn.
  - simpl. rewrite E. exact (IH Hnd').
Qed.

Lemma keys_delete_incl (k x : string) (d : dict) :
  In x (map fst (dict_delete k d)) -> In x (map fst d).
Proof.
  induction d as [|[k0 v0] r IH]; simpl; [tauto|].
  destruct (String.eqb k k0); simpl; [tauto|]. intros [H|H]; [left; exact H|right; auto].
Qed.

Lemma nodup_delete (k : string) (d : dict) :
  NoDup (map fst d) -> NoDup (map fst (dict_delete k d)).
Proof.
  induction d as [|[k0 v0] r IH]; simpl; intro Hnd; [constructor|].
  inversion Hnd as [|? ? Hn Hnd']; subst.
  destruct (String.eqb k k0); [exact Hnd'|].
  simpl. constructor; [|exact (IH Hnd')]. intro H. apply Hn. exact (keys_delete_incl _ _ _ H).
Qed.

Lemma keys_set_incl (k x : string) (v : json) (d : dict) :
  In x (map fst (dict_set k v d)) -> x = k \/ In x (map fst d).
Proof.
  induction d as [|[k0 v0] r IH]; simpl; [intros [H|[]]; left; auto|].
  destruct (String.eqb k k0); simpl; [tauto|]. intros [H|H]; [tauto|].
  destruct (IH H); tauto.
Qed.

Lemma nodup_set (k : string) (v : json) (d : dict) :
  NoDup (map fst d) -> NoDup (map fst (dict_set k v d)).
Proof.
  induction d as [|[k0 v0] r IH]; simpl; intro Hnd; [repeat constructor; simpl; tauto|].
  inversion Hnd as [|? ? Hn Hnd']; subst.
  destruct (String.eqb k k0) eqn:E; simpl; [constructor; assumption|].
  constructor; [|exact (IH Hnd')].
  intro H. destruct (keys_set_incl _ _ _ _ H) as [H'|H'].
  - subst. rewrite String.eqb_refl in E. discriminate.
  - exact (Hn H').
Qed.

Lemma prune_key (k : string) (cd d : dict) :
  NoDup (map fst cd) -> prune_one cd (DKey k) = Some d ->
  NoDup (map fst d) /\ lookup k d = None /\ forall k', k' <> k -> lookup k' d = lookup k' cd.
Proof.
  intros Hnd H. simpl in H.
  destruct (lookup k cd) eqn:E; injection H as <-.
  - split; [apply nodup_delete; exact Hnd|]. split.
    + destruct (lookup_delete_eq k cd Hnd) as [H|H]; [exact H|congruence].
    + intros k' Hne. apply lookup_delete_neq. congruence.
  - split; [exact Hnd|]. split; [exact E|]. reflexivity.
Qed.

Lemma prune_stats (cd d : dict) :
  NoDup (map fst cd) ->
  (forall sd, lookup "stats" cd = Some (JObj sd) -> NoDup (map fst sd)) ->
  prune_one cd (DNested "stats" ["skipped_print_count"]) = Some d ->
  NoDup (map fst d)
  /\ (forall k', k' <> "stats"%string -> lookup k' d = lookup k' cd)
  /\ (forall sd, lookup "stats" cd = Some (JObj sd) ->
        exists sd', lookup "stats" d = Some (JObj sd')
                    /\ lookup "skipped_print_count" sd' = None
                    /\ forall k, k <> "skipped_print_count"%string -> lookup k sd' = lookup k sd).
Proof.
  intros Hnd Hsd H. simpl in H.
  destruct (lookup "stats" cd) as [pv|] eqn:E.
  - destruct (delete_child "skipped_print_count" pv) as [pv'|] eqn:D; [|discriminate].
    injection H as <-. split; [apply nodup_set; exact Hnd|]. split.
    + intros k' Hne. apply lookup_set_neq. congruence.
    + intros sd Esd. injection Esd as ->. simpl in D.
      exists (match lookup "skipped_print_count" sd with
              | Some _ => dict_delete "skipped_print_count" sd | None => sd end).
      injection D as <-. split; [apply lookup_set_eq|].
      specialize (Hsd sd eq_refl).
      destruct (lookup "skipped_print_count" sd) eqn:Es.
      * split.
        -- destruct (lookup_delete_eq "skipped_print_count" sd Hsd) as [H|H]; [exact H|congruence].
        -- intros k Hk. apply lookup_delete_neq. congruence.
      * split; [exact Es|reflexivity].
  - injection H as <-. split; [exact Hnd|]. split; [reflexivity|]. discriminate.
Qed.

(** X6: When [save_config]'s pruning loop completes, the document it dumps has
    none of the deprecated top-level keys and no [stats.skipped_print_count];
    every other top-level key and every other key of a [stats] object keeps
    its value. *)
Theorem save_config_drops_deprecated (cd d' : dict) :
  NoDup (map fst cd) ->
  (forall sd, lookup "stats" cd = Some (JObj sd) -> NoDup (map fst sd)) ->
  prune_deprecated cd = Some d' ->
  lookup "min_idle_minutes" d' = None /\ lookup "min_done_count" d' = None
  /\ lookup "min_idle_count" d' = None
  /\ (forall k, ~ In k ["min_idle_minutes"; "min_done_count"; "min_idle_count"; "stats"]%string ->
        lookup k d' = lookup k cd)
  /\ (forall sd, lookup "stats" cd = Some (JObj sd) ->
        exists sd', lookup "stats" d' = Some (JObj sd')
                    /\ lookup "skipped_print_count" sd' = None
                    /\ forall k, k <> "skipped_print_count"%string -> lookup k sd' = lookup k sd).
Proof.
  intros Hnd Hsd H. unfold prune_deprecated, deprecated_keys in H. cbn [fold_left] in H.
  destruct (prune_one cd (DKey "min_idle_minutes")) as [d1|] eqn:E1; [|discriminate].
  destruct (prune_one d1 (DNested "stats" ["skipped_print_count"])) as [d2|] eqn:E2;
    [|discriminate].
  destruct (prune_one d2 (DKey "min_done_count")) as [d3|] eqn:E3; [|discriminate].
  destruct (prune_one d3 (DKey "min_idle_count")) as [d4|] eqn:E4; [|discriminate].
  injection H as <-.
  destruct (prune_key _ _ _ Hnd E1) as [N1 [L1 O1]].
  assert (Hsd1 : forall sd, lookup "stats" d1 = Some (JObj sd) -> NoDup (map fst sd)).
  { intros sd Hl. apply Hsd. rewrite <- O1; [exact Hl|discriminate]. }
  destruct (prune_stats _ _ N1 Hsd1 E2) as [N2 [O2 S2]].
  destruct (prune_key _ _ _ N2 E3) as [N3 [L3 O3]].
  destruct (prune_key _ _ _ N3 E4) as [N4 [L4 O4]].
  split; [rewrite O4, O3, O2 by discriminate; exact L1|].
  split; [rewrite O4 by discriminate; exact L3|].
  split; [exact L4|]. split.
  - intros k Hk. simpl in Hk.
    rewrite O4, O3, O2, O1 by (intro Heq; apply Hk; subst k; tauto). reflexivity.
  - intros sd Hl. rewrite <- O1 in Hl by discriminate.
    destruct (S2 sd Hl) as [sd' [Hs' Hrest]]. exists sd'.
    rewrite O4, O3 by discriminate. split; [exact Hs'|exact Hrest].
Qed.

Lemma save_config_drops_deprecated_witness :
  exists d',
    prune_deprecated [("min_idle_minutes", JNum 3); ("off_power", JNum 2);
                      ("stats", JObj [("skipped_print_count", JNum 4); ("on", JObj [])])]%string
      = Some d'
    /\ lookup "min_idle_minutes" d' = None
    /\ lookup "off_power" d' = Some (JNum 2).
Proof.
  eexists. split; [reflexivity|].
  destruct (save_config_drops_deprecated
              [("min_idle_minutes", JNum 3); ("off_power", JNum 2);
               ("stats", JObj [("skipped_print_count", JNum 4); ("on", JObj [])])]%string
              _ ltac:(repeat constructor; simpl; intuition discriminate)
              ltac:(intros sd Hl; injection Hl as <-; repeat constructor; simpl;
                    intuition discriminate)
              eq_refl) as [H1 [_ [_ [H4 _]]]].
  split; [exact H1|]. rewrite H4; [reflexivity|]. simpl. intuition discriminate.
Defined.

Close Scope string_scope.

(* ------------------------------------------------------------------------- *)
(** ** What [load_config(reset=True)] resets *)

Open Scope string_scope.

(** Whether the merge raises depends only on the stored values of the
    default's keys, not on [reset]. *)
Lemma update_value_succeeds_agree (dd cd1 cd2 : dict) (b b' : bool) (r : json) :
  NoDup (map fst dd) ->
  (forall k, In k (map fst dd) -> lookup k cd1 = lookup k cd2) ->
  update_value (JObj cd1) (JObj dd) b = Some r ->
  exists r', update_value (JObj cd2) (JObj dd) b' = Some r'.
Proof.
  simpl. revert cd1 cd2 r. induction dd as [|[k0 dv] rest IH]; intros cd1 cd2 r Hnd Hag H.
  - eexists; reflexivity.
  - simpl in Hnd. inversion Hnd as [|? ? Hk0 Hnd']; subst.
    assert (Hag' : forall v1 v2 k, In k (map fst rest) ->
                     lookup k (dict_set k0 v1 cd1) = lookup k (dict_set k0 v2 cd2)).
    { intros v1 v2 k Hk.
      assert (Hne : k0 <> k) by (intro Heq; subst; exact (Hk0 Hk)).
      rewrite !lookup_set_neq by exact Hne. apply Hag. right. exact Hk. }
    destruct dv as [| | | | |d0];
      try (eapply IH; [exact Hnd'|apply Hag'|exact H]).
    rewrite <- (Hag k0 (or_introl eq_refl)).
    destruct (update_value (match lookup k0 cd1 with Some v => v | None => JObj [] end)
                (JObj d0) false) as [m|] eqn:U; [|discriminate].
    eapply IH; [exact Hnd'|apply Hag'|exact H].
Qed.

(** X7: When [load_config(reset=True)] completes, [load_config()] completes on
    the same stored document too, and the two results differ only on the five scalar settings [off_power],
    [max_idle_power], [min_runtime_minutes], [min_data_window_minutes] and
    [re_remind], which take their default values; the stored [stats] (merged
    with the defaults), [device_name], [re_remind_counter] and every other
    key are kept as [load_config()] keeps them. *)
Theorem load_config_reset_scope (st : option json) (rt : json) :
  load_config st true = Some rt ->
  exists rtd rfd, rt = JObj rtd /\ load_config st false = Some (JObj rfd)
    /\ forall k, lookup k rtd =
         if existsb (String.eqb k) ["off_power"; "max_idle_power"; "min_runtime_minutes";
                                    "min_data_window_minutes"; "re_remind"]
         then lookup k load_config_default else lookup k rfd.
Proof.
  unfold load_config, update_dict_recursive. intro H.
  destruct (match st with Some j => j | None => JObj [] end) as [| | | | |cd];
    try discriminate H.
  destruct (update_value_succeeds_agree load_config_default cd cd true false rt
              load_config_default_nodup (fun _ _ => eq_refl) H) as [rf Hf].
  destruct (update_value_lookup _ _ _ _ load_config_default_nodup H) as [rtd [Ert Hrt]].
  destruct (update_value_lookup _ _ _ _ load_config_default_nodup Hf) as [rfd [Erf Hrf]].
  subst rt rf. exists rtd, rfd. split; [reflexivity|]. split; [exact Hf|].
  intro k. rewrite Hrt, Hrf. unfold merged_at, load_config_default.
  cbn [lookup existsb].
  destruct (String.eqb k "off_power"); [reflexivity|].
  destruct (String.eqb k "max_idle_power"); [reflexivity|].
  destruct (String.eqb k "min_runtime_minutes"); [reflexivity|].
  destruct (String.eqb k "min_data_window_minutes"); [reflexivity|].
  destruct (String.eqb k "re_remind"); [reflexivity|].
  destruct (String.eqb k "stats"); reflexivity.
Qed.

Lemma load_config_reset_scope_witness :
  exists rt, load_config (Some stored_sample) true = Some rt
    /\ exists rtd rfd, rt = JObj rtd /\ load_config (Some stored_sample) false = Some (JObj rfd)
    /\ forall k, lookup k rtd =
         if existsb (String.eqb k) ["off_power"; "max_idle_power"; "min_runtime_minutes";
                                    "min_data_window_minutes"; "re_remind"]
         then lookup k load_config_default else lookup k rfd.
Proof.
  eexists. split; [reflexivity|]. apply load_config_reset_scope. reflexivity.
Defined.

Close Scope string_scope.

(* ------------------------------------------------------------------------- *)
(** ** [triplewise] *)

Lemma pairwise_nth (A : Type) (l : list A) (i : nat) :
  nth_error (pairwise l) i =
  match nth_error l i, nth_error l (S i) with
  | Some a, Some b => Some (a, b)
  | _, _ => None
  end.
Proof.
  revert i. induction l as [|a [|b r] IH]; intro i.
  - destruct i; reflexivity.
  - destruct i as [|[|i]]; reflexivity.
  - destruct i as [|i]; [reflexivity|]. exact (IH i).
Qed.

Lemma pairwise_length (A : Type) (l : list A) : List.length (pairwise l) = (List.length l - 1)%nat.
Proof.
  induction l as [|a [|b r] IH]; [reflexivity|reflexivity|].
  change (S (List.length (pairwise (b :: r))) = (List.length (b :: r) - 0)%nat).
  rewrite IH. simpl. lia.
Qed.

(** X8: [triplewise(l)] yields [len(l) - 2] triplets (none for fewer than three
    elements), the [i]-th being [(l[i], l[i+1], l[i+2])]. *)
Theorem triplewise_spec (A : Type) (l : list A) :
  List.length (triplewise l) = (List.length l - 2)%nat
  /\ forall i, nth_error (triplewise l) i =
       match nth_error l i, nth_error l (S i), nth_error l (S (S i)) with
       | Some a, Some b, Some c => Some (a, b, c)
       | _, _, _ => None
       end.
Proof.
  unfold triplewise. split.
  - rewrite length_map, !pairwise_length. lia.
  - intro i. rewrite nth_error_map, !pairwise_nth.
    destruct (nth_error l i), (nth_error l (S i)), (nth_error l (S (S i))); reflexivity.
Qed.

(* ------------------------------------------------------------------------- *)
(** ** [prune_file] *)

Lemma triplewise_step (A : Type) (a b c : A) (r : list A) :
  triplewise (a :: b :: c :: r) = (a, b, c) :: triplewise (b :: c :: r).
Proof. reflexivity. Qed.

Lemma triplewise_centers (A : Type) (a : A) (l : list A) :
  map (fun '(_, b, _) => b) (triplewise (a :: l)) = removelast l.
Proof.
  revert a. induction l as [|b l IH]; intro a; [reflexivity|].
  destruct l as [|c r]; [reflexivity|].
  rewrite triplewise_step. simpl map. rewrite IH. reflexivity.
Qed.

Lemma kept_centers_subseq (header : row) (ts : list (row * row * row)) (mid : list row) :
  kept_centers header ts = Some mid -> subseq mid (map (fun '(_, b, _) => b) ts).
Proof.
  revert mid. induction ts as [|[[a b] c] r IH]; intros mid H.
  - injection H as <-. constructor.
  - cbn [kept_centers map] in H |- *.
    destruct (keep_center header interesting_keys a b c) as [[|]|]; [|apply subseq_skip, IH, H|
      discriminate].
    destruct (kept_centers header r) as [m|]; [|discriminate].
    injection H as <-. apply subseq_take, IH. reflexivity.
Qed.

Lemma subseq_refl (A : Type) (l : list A) : subseq l l.
Proof. induction l; constructor; assumption. Qed.

Lemma subseq_app (A : Type) (l1 l2 m1 m2 : list A) :
  subseq l1 l2 -> subseq m1 m2 -> subseq (l1 ++ m1) (l2 ++ m2).
Proof. intros H Hm. induction H; simpl; [exact Hm|constructor; assumption|constructor; assumption]. Qed.

Lemma prune_short (header : row) (rows : list row) :
  (List.length rows <= 100)%nat -> prune_rows header rows = None.
Proof.
  intro H. unfold prune_rows, keep_n_lines.
  assert (E : (List.length rows - 100 = 0)%nat) by lia. rewrite E. reflexivity.
Qed.

(** X9: [prune_file] raises, before it opens the file for writing, on a file of
    at most 101 rows (the header and at most [keep_n_lines] rows): the slice
    [all_lines[:-keep_n_lines]] is empty and [lines[0]] fails. *)
Theorem prune_file_short_log_raises (file : list row) :
  (List.length file <= 101)%nat -> prune_file true file = None.
Proof.
  intro H. destruct file as [|header rows]; [reflexivity|].
  simpl in H. unfold prune_file. cbn [negb]. rewrite prune_short by lia. reflexivity.
Qed.

Lemma prune_file_short_log_raises_witness :
  prune_file true (["Power"] :: repeat ["0"] 100)%string = None.
Proof.
  apply prune_file_short_log_raises. apply Nat.leb_le. reflexivity.
Defined.

(** X10: With exactly 101 data rows, [lines] is the first row alone: [prune_file]
    writes that row twice ([lines[0]] and [lines[-1]]), followed by the last
    100 rows, so the file grows by one row. *)
Theorem prune_file_duplicates_single_row (header r0 : row) (rest : list row) :
  List.length rest = 100%nat ->
  prune_file true (header :: r0 :: rest) = Some (header :: r0 :: r0 :: rest).
Proof.
  intro H. unfold prune_file, prune_rows, keep_n_lines. cbn [negb List.length].
  rewrite H. reflexivity.
Qed.

Lemma prune_file_duplicates_single_row_witness :
  prune_file true (["Power"] :: ["1"] :: repeat ["0"] 100)%string
  = Some (["Power"] :: ["1"] :: ["1"] :: repeat ["0"] 100)%string.
Proof.
  apply prune_file_duplicates_single_row. apply repeat_length.
Defined.

(** X11: With at least 102 data rows, a successful [prune_file] keeps the header,
    then a subsequence of the older rows [all_lines[:-100]] that starts with
    the first row and ends with the last of them, then the last 100 rows
    unchanged: it only deletes rows, never reorders, duplicates or edits
    them. *)
Theorem prune_file_subsequence (header : row) (rows out : list row) :
  (102 <= List.length rows)%nat ->
  prune_file true (header :: rows) = Some out ->
  exists kept, out = header :: kept ++ skipn (List.length rows - 100) rows
    /\ subseq kept (firstn (List.length rows - 100) rows)
    /\ hd_error kept = hd_error rows
    /\ last kept [] = nth (List.length rows - 101) rows [].
Proof.
  intros Hlen H. unfold prune_file in H. cbn [negb] in H.
  unfold prune_rows, keep_n_lines in H.
  remember (firstn (List.length rows - 100) rows) as lines eqn:El.
  assert (Hll : List.length lines = (List.length rows - 100)%nat)
    by (subst lines; rewrite length_firstn; lia).
  destruct lines as [|a l]; [simpl in Hll; lia|].
  destruct (kept_centers header (triplewise (a :: l))) as [mid|] eqn:K; [|discriminate].
  injection H as <-.
  assert (Hl : l <> []) by (intro; subst l; simpl in Hll; lia).
  assert (Hlast : last (a :: l) a = last l a) by (destruct l; [contradiction|reflexivity]).
  exists ([a] ++ mid ++ [last (a :: l) a]). split; [simpl; rewrite <- app_assoc; reflexivity|]. split.
  - rewrite Hlast. simpl. apply subseq_take.
    assert (Hs : subseq (mid ++ [last l a]) (removelast l ++ [last l a])).
    { apply subseq_app; [|apply subseq_refl].
      rewrite <- (triplewise_centers _ a l). apply (kept_centers_subseq header). exact K. }
    rewrite <- (app_removelast_last a Hl) in Hs. exact Hs.
  - split.
    + destruct rows as [|r0 rs]; [simpl in Hlen; lia|].
      assert (E : exists m, (List.length (r0 :: rs) - 100 = S m)%nat)
        by (exists (List.length (r0 :: rs) - 101)%nat; simpl in *; lia).
      destruct E as [m Em]. rewrite Em in El. simpl in El. injection El as -> _. reflexivity.
    + rewrite app_assoc, last_last, Hlast.
      assert (Hn : nth (List.length l) (a :: l) [] = nth (List.length rows - 101) rows []).
      { rewrite El, nth_firstn. replace (List.length l) with (List.length rows - 101)%nat by
          (simpl in Hll; lia).
        destruct (Nat.ltb_spec (List.length rows - 101) (List.length rows - 100)); [reflexivity|lia]. }
      rewrite <- Hn. clear - Hl. destruct l as [|b l]; [contradiction|].
      change (last (b :: l) a = nth (List.length l) (b :: l) []).
      clear Hl. revert b. induction l as [|c l IH]; intro b; [reflexivity|]. exact (IH c).
Qed.

Lemma prune_file_subsequence_witness :
  exists out,
    prune_file true (["Power"; "Total"; "TotalStartTime"; "power1"] :: repeat ["0"; "0"; "0"; "0"] 102)%string
    = Some out
    /\ exists kept,
      out = ["Power"; "Total"; "TotalStartTime"; "power1"]%string
              :: kept ++ skipn 2 (repeat ["0"; "0"; "0"; "0"]%string 102)
      /\ subseq kept (firstn 2 (repeat ["0"; "0"; "0"; "0"]%string 102))
      /\ hd_error kept = hd_error (repeat ["0"; "0"; "0"; "0"]%string 102)
      /\ last kept [] = nth 1 (repeat ["0"; "0"; "0"; "0"]%string 102) [].
Proof.
  eexists. split; [reflexivity|].
  apply (prune_file_subsequence _ (repeat ["0"; "0"; "0"; "0"]%string 102));
    [apply Nat.leb_le; reflexivity|reflexivity].
Defined.

Lemma py_index_notin (x : string) (l : list string) : ~ In x l -> py_index x l = None.
Proof.
  induction l as [|y l IH]; intro H; [reflexivity|]. simpl.
  destruct (String.eqb x y) eqn:E.
  - apply String.eqb_eq in E. subst. exfalso. apply H. left. reflexivity.
  - rewrite IH; [reflexivity|]. intro Hi. apply H. right. exact Hi.
Qed.

(** X12: [prune_file] raises [ValueError], before it opens the file for writing,
    when the header has no [Power] column and there is at least one triplet
    of older rows to compare (103 data rows or more). *)
Theorem prune_file_missing_power_raises (header : row) (rows : list row) :
  ~ In "Power"%string header -> (103 <= List.length rows)%nat ->
  prune_file true (header :: rows) = None.
Proof.
  intros Hp Hlen. unfold prune_file. cbn [negb]. unfold prune_rows, keep_n_lines.
  assert (E : exists m, (List.length rows - 100 = S (S (S m)))%nat)
    by (exists (List.length rows - 103)%nat; lia).
  destruct E as [m Em]. rewrite Em.
  destruct rows as [|a [|b [|c r]]]; simpl in Hlen; try lia.
  cbn [firstn]. rewrite triplewise_step. cbn [kept_centers keep_center interesting_keys].
  rewrite (py_index_notin _ _ Hp). reflexivity.
Qed.

Lemma prune_file_missing_power_raises_witness :
  prune_file true (["Time"] :: repeat ["x"] 103)%string = None.
Proof.
  apply prune_file_missing_power_raises.
  - simpl. intros [H|[]]. discriminate H.
  - apply Nat.leb_le. reflexivity.
Defined.

(* ------------------------------------------------------------------------- *)
(** ** The window of [check_status] *)

Lemma last_default_irrel (A : Type) (l : list A) (d d' : A) : l <> [] -> last l d = last l d'.
Proof.
  induction l as [|a l IH]; intro H; [contradiction|].
  destruct l as [|b l]; [reflexivity|]. apply IH. discriminate.
Qed.

Lemma last_cons_default (A : Type) (a d : A) (l : list A) : last (a :: l) d = last l a.
Proof.
  destruct l as [|b l]; [reflexivity|]. change (last (b :: l) d = last (b :: l) a). apply last_default_irrel. discriminate.
Qed.

Lemma window_loop_spec (mdw : Z) (iv : Q) (count : nat) (rl : list sample)
    (pl0 : list Q) (tl0 te0 : Z) (ltp0 : Q) (pl : list Q) (tl te : Z) (ltp : Q) :
  window_loop mdw iv count rl pl0 tl0 te0 ltp0 = Some (pl, tl, te, ltp) ->
  exists k m, (k <= List.length rl)%nat
    /\ (rl <> [] -> ~ (iv == 0)%Q)
    /\ pl = pl0 ++ map s_power (firstn k rl)
    /\ tl = fold_left Z.max (map s_time (firstn k rl)) tl0
    /\ te = fold_left Z.min (map s_time (firstn k rl)) te0
    /\ ltp = last (map s_total (firstn m rl)) ltp0
    /\ (forall j, (j < m)%nat -> window_break mdw iv (count + j) (firstn (S j) rl) tl0 te0 = false)
    /\ ((m = k /\ k = List.length rl)
        \/ (S m = k /\ window_break mdw iv (count + m) (firstn k rl) tl0 te0 = true)).
Proof.
  revert count pl0 tl0 te0 ltp0.
  induction rl as [|x r IH]; intros count pl0 tl0 te0 ltp0 H.
  - injection H as <- <- <- <-. exists O, O.
    split; [lia|]. split; [intro; contradiction|].
    split; [rewrite app_nil_r; reflexivity|]. split; [reflexivity|]. split; [reflexivity|].
    split; [reflexivity|]. split; [intros; lia|]. left. split; reflexivity.
  - cbn [window_loop] in H.
    destruct (Qeq_bool iv 0) eqn:Ei; [discriminate|].
    assert (Hiv : ~ (iv == 0)%Q) by (intro Q0; apply Qeq_bool_iff in Q0; congruence).
    destruct (negb (Qle_bool (inject_Z (Z.of_nat count)) ((mdw # 1000000) / iv))
              && (mdw <? Z.max tl0 (s_time x) - Z.min te0 (s_time x))) eqn:Eb.
    + injection H as <- <- <- <-. exists 1%nat, O.
      split; [simpl; lia|]. split; [intros _; exact Hiv|].
      split; [reflexivity|]. split; [reflexivity|]. split; [reflexivity|].
      split; [reflexivity|]. split; [intros; lia|]. right. split; [reflexivity|].
      rewrite Nat.add_0_r. exact Eb.
    + destruct (IH _ _ _ _ _ H) as [k [m [Hk [_ [Hpl [Htl [Hte [Hltp [Hcont Hend]]]]]]]]].
      exists (S k), (S m).
      split; [simpl; lia|]. split; [intros _; exact Hiv|].
      split; [rewrite Hpl; simpl; rewrite <- app_assoc; reflexivity|].
      split; [exact Htl|]. split; [exact Hte|].
      split; [rewrite Hltp; cbn [firstn map]; rewrite last_cons_default; reflexivity|].
      split.
      * intros j Hj. destruct j as [|j]; [rewrite Nat.add_0_r; exact Eb|].
        replace (count + S j)%nat with (S count + j)%nat by lia.
        apply Hcont. lia.
      * destruct Hend as [[-> ->]|[<- Hb]]; [left; split; reflexivity|].
        right. split; [reflexivity|].
        replace (count + S m)%nat with (S count + m)%nat by lia. exact Hb.
Qed.

(** X13: The window of [check_status] is the last [k] samples of the file, in
    file order, for the first [count = k - 1] (reading backwards) at which
    the [break] condition holds, or all the samples when it never holds;
    [time_latest] and [time_earliest] are the maximum and minimum [Time] of
    those [k] samples, and [last_total_power] is the [Total] of the [m]-th
    latest sample, where [m = k] when the loop ran out of samples and
    [m = k - 1] when it broke ([0.0] when [m = 0]).  The window is not empty
    when the file is not, and the loop raises [ZeroDivisionError] on a
    non-empty file when [interval] is zero. *)
Theorem window_suffix (mdw : Z) (interval : Q) (lines : list sample)
    (pl : list Q) (tl te : Z) (ltp : Q) :
  window mdw interval lines = Some (pl, tl, te, ltp) ->
  exists k m, (k <= List.length lines)%nat
    /\ (lines <> [] -> (1 <= k)%nat /\ ~ (interval == 0)%Q)
    /\ pl = skipn (List.length lines - k) (map s_power lines)
    /\ tl = fold_left Z.max (map s_time (firstn k (rev lines))) datetime_min
    /\ te = fold_left Z.min (map s_time (firstn k (rev lines))) datetime_max
    /\ ltp = last (map s_total (firstn m (rev lines))) 0%Q
    /\ (forall j, (j < m)%nat ->
          window_break mdw interval j (firstn (S j) (rev lines)) datetime_min datetime_max
          = false)
    /\ ((m = k /\ k = List.length lines)
        \/ (S m = k /\ window_break mdw interval m (firstn k (rev lines))
                         datetime_min datetime_max = true)).
Proof.
  unfold window. intro H.
  destruct (window_loop mdw interval 0 (rev lines) [] datetime_min datetime_max 0)
    as [[[[pl' tl'] te'] ltp']|] eqn:E; [|discriminate].
  injection H as <- <- <- <-.
  destruct (window_loop_spec _ _ _ _ _ _ _ _ _ _ _ _ E)
    as [k [m [Hk [Hiv [Hpl [Htl [Hte [Hltp [Hcont Hend]]]]]]]]].
  rewrite length_rev in Hk. exists k, m.
  split; [exact Hk|]. split.
  - intro Hne. assert (Hr : rev lines <> []) by (intro Hr; apply Hne;
      rewrite <- (rev_involutive lines), Hr; reflexivity).
    split; [|exact (Hiv Hr)].
    destruct Hend as [[-> ->]|[<- _]]; [|lia].
    destruct lines; [contradiction|rewrite length_rev; simpl; lia].
  - split; [rewrite Hpl; simpl; rewrite <- map_rev, firstn_rev, rev_involutive, skipn_map;
            reflexivity|].
    split; [exact Htl|]. split; [exact Hte|]. split; [exact Hltp|]. split; [exact Hcont|].
    rewrite length_rev in Hend. exact Hend.
Qed.

Lemma window_suffix_witness :
  exists pl tl te ltp,
    window (180 * us_per_second) 60 window_sample = Some (pl, tl, te, ltp)
    /\ exists k m, (k <= List.length window_sample)%nat
    /\ (window_sample <> [] -> (1 <= k)%nat /\ ~ (60 == 0)%Q)
    /\ pl = skipn (List.length window_sample - k) (map s_power window_sample)
    /\ tl = fold_left Z.max (map s_time (firstn k (rev window_sample))) datetime_min
    /\ te = fold_left Z.min (map s_time (firstn k (rev window_sample))) datetime_max
    /\ ltp = last (map s_total (firstn m (rev window_sample))) 0%Q
    /\ (forall j, (j < m)%nat ->
          window_break (180 * us_per_second) 60 j (firstn (S j) (rev window_sample))
            datetime_min datetime_max = false)
    /\ ((m = k /\ k = List.length window_sample)
        \/ (S m = k /\ window_break (180 * us_per_second) 60 m (firstn k (rev window_sample))
                         datetime_min datetime_max = true)).
Proof.
  do 4 eexists. split; [reflexivity|].
  apply window_suffix. reflexivity.
Defined.

(* ------------------------------------------------------------------------- *)
(** ** The debug replay of [do_once] *)








(* ------------------------------------------------------------------------- *)
(** ** The escaping of [telegram_bot_sendtext] *)

Lemma existsb_ascii_In (c : ascii) (l : list ascii) : existsb (Ascii.eqb c) l = true <-> In c l.
Proof.
  rewrite existsb_exists. split.
  - intros [x [Hx E]]. apply Ascii.eqb_eq in E. subst. exact Hx.
  - intro H. exists c. split; [exact H|apply Ascii.eqb_refl].
Qed.

Lemma existsb_ascii_notin (c : ascii) (l : list ascii) :
  ~ In c l -> existsb (Ascii.eqb c) l = false.
Proof.
  intro H. destruct (existsb (Ascii.eqb c) l) eqn:E; [|reflexivity].
  exfalso. apply H. apply existsb_ascii_In. exact E.
Qed.

Lemma escape_each_replace (ch : ascii) (l : list ascii) (s : string) :
  ~ In ch l -> ~ In backslash l ->
  escape_each l (str_replace_char ch (String backslash (String ch EmptyString)) s)
  = escape_each (ch :: l) s.
Proof.
  intros Hch Hb. induction s as [|c r IH]; [reflexivity|].
  cbn [str_replace_char].
  destruct (Ascii.eqb c ch) eqn:E.
  - apply Ascii.eqb_eq in E. subst c. cbn [append escape_each existsb].
    rewrite Ascii.eqb_refl, (existsb_ascii_notin _ _ Hb), (existsb_ascii_notin _ _ Hch), IH.
    reflexivity.
  - cbn [escape_each existsb]. rewrite E, IH. reflexivity.
Qed.

Lemma escape_fold (l : list ascii) (acc : list ascii) (s : string) :
  NoDup (l ++ acc) -> ~ In backslash (l ++ acc) ->
  escape_each acc (fold_left (fun m ch => str_replace_char ch (String backslash (String ch EmptyString)) m) l s)
  = escape_each (l ++ acc) s.
Proof.
  revert acc s. induction l as [|ch l IH]; intros acc s Hnd Hb; [reflexivity|].
  cbn [fold_left]. simpl in Hnd, Hb.
  inversion Hnd as [|? ? Hn Hnd']; subst.
  rewrite IH by exact Hnd' || (intro; apply Hb; right; assumption).
  rewrite escape_each_replace by (exact Hn || (intro; apply Hb; right; assumption)).
  reflexivity.
Qed.

Lemma escape_each_nil (s : string) : escape_each [] s = s.
Proof. induction s as [|c r IH]; [reflexivity|]. simpl. rewrite IH. reflexivity. Qed.

Lemma escape_chars_nodup : NoDup escape_chars /\ ~ In backslash escape_chars.
Proof.
  split.
  - unfold escape_chars. repeat constructor; simpl; intro H;
      repeat (destruct H as [H|H]; [discriminate H|]); exact H.
  - simpl. intro H. repeat (destruct H as [H|H]; [discriminate H|]). exact H.
Qed.

Lemma escape_message_each (message : string) :
  escape_message message = escape_each escape_chars message.
Proof.
  destruct escape_chars_nodup as [Hnd Hb].
  pose proof (escape_fold escape_chars [] message) as H.
  rewrite !app_nil_r in H.
  specialize (H Hnd Hb). rewrite <- H, escape_each_nil. reflexivity.
Qed.

(** X16: The replacement loop of [telegram_bot_sendtext] is the same as escaping
    each special character of the message in a single pass: since the
    backslash is not one of [escape_chars], no pass touches what an earlier
    pass inserted, and each of the 17 characters is preceded by exactly one
    backslash. *)
Theorem escape_message_single_pass (message : string) :
  escape_message message = escape_each escape_chars message.
Proof.
  destruct escape_chars_nodup as [Hnd Hb].
  pose proof (escape_fold escape_chars [] message) as H.
  rewrite !app_nil_r in H.
  specialize (H Hnd Hb). rewrite <- H, escape_each_nil. reflexivity.
Qed.


Lemma escape_each_head (l : list ascii) (s t : string) (x : ascii) :
  escape_each l s = String x t -> x = backslash \/ ~ In x l.
Proof.
  destruct s as [|c r]; simpl; [discriminate|].
  destruct (existsb (Ascii.eqb c) l) eqn:E; intro H; injection H as <- _; [left; reflexivity|].
  right. intro Hin. apply existsb_ascii_In in Hin. congruence.
Qed.

Lemma escape_each_injective (l : list ascii) (s1 s2 : string) :
  ~ In backslash l -> escape_each l s1 = escape_each l s2 -> s1 = s2.
Proof.
  intro Hb. revert s2. induction s1 as [|c1 r1 IH]; intros s2 H.
  - destruct s2 as [|c2 r2]; [reflexivity|]. simpl in H.
    destruct (existsb (Ascii.eqb c2) l); discriminate.
  - destruct s2 as [|c2 r2]; simpl in H.
    + destruct (existsb (Ascii.eqb c1) l); discriminate.
    + destruct (existsb (Ascii.eqb c1) l) eqn:E1, (existsb (Ascii.eqb c2) l) eqn:E2.
      * injection H as <- H. rewrite (IH r2 H). reflexivity.
      * injection H as Hc2 H. symmetry in H. apply escape_each_head in H.
        apply existsb_ascii_In in E1. destruct H as [H|H]; [subst; contradiction|contradiction].
      * injection H as Hc1 H. apply escape_each_head in H.
        apply existsb_ascii_In in E2. destruct H as [H|H]; [subst; contradiction|contradiction].
      * injection H as <- H. rewrite (IH r2 H). reflexivity.
Qed.

(** X17: The escaping of [telegram_bot_sendtext] is injective: two different
    messages are never sent as the same text. *)
Theorem escape_message_injective (m1 m2 : string) :
  escape_message m1 = escape_message m2 -> m1 = m2.
Proof.
  rewrite !escape_message_each. apply escape_each_injective.
  exact (proj2 escape_chars_nodup).
Qed.

Lemma escape_message_injective_witness :
  (escape_message "1.5 kWh (done)" = escape_message "1.5 kWh (done)")%string
  /\ "1.5 kWh (done)"%string = "1.5 kWh (done)"%string.
Proof.
  split; [reflexivity|]. apply escape_message_injective. reflexivity.
Defined.

(* ------------------------------------------------------------------------- *)
(** ** The CSV file of [log_to_csv] *)

Lemma str_in_true (x : string) (l : list string) : str_in x l = true <-> In x l.
Proof.
  unfold str_in. rewrite existsb_exists. split.
  - intros [y [Hy E]]. apply String.eqb_eq in E. subst. exact Hy.
  - intro H. exists x. split; [exact H|apply String.eqb_refl].
Qed.

Lemma read_header_valid (file : option (list row)) (h : row) :
  read_header file = Some h -> forallb (fun item => str_in item attribute_unit_keys) h = true.
Proof.
  intro H. destruct file as [[|[|a l] f]|]; cbn [read_header] in H; try discriminate H.
  destruct (forallb (fun item => str_in item attribute_unit_keys) (a :: l))
    eqn:E; [|discriminate H].
  injection H as <-. exact E.
Qed.

Lemma build_row_aligned (h r : row) (data : list (string * string)) :
  forallb (fun item => str_in item attribute_unit_keys) h = true ->
  build_row h data = Some r ->
  List.length r = List.length h
  /\ forall i k, nth_error h i = Some k -> nth_error r i = str_lookup k data.
Proof.
  revert r. induction h as [|a h IH]; intros r Hv H.
  - injection H as <-. split; [reflexivity|]. intros [|i] k E; discriminate.
  - cbn [forallb] in Hv. apply andb_prop in Hv as [Ha Hv]. cbn [build_row] in H. rewrite Ha in H.
    destruct (str_lookup a data) as [v|] eqn:Ev; [|discriminate].
    destruct (build_row h data) as [r'|]; [|discriminate].
    injection H as <-. destruct (IH r' Hv eq_refl) as [Hl Hn].
    split; [simpl; congruence|].
    intros [|i] k E; simpl in E |- *; [injection E as <-; symmetry; exact Ev|exact (Hn i k E)].
Qed.

Lemma build_row_missing (h : row) (data : list (string * string)) :
  build_row h data = None -> exists k, In k h /\ str_lookup k data = None.
Proof.
  induction h as [|a h IH]; cbn [build_row]; [discriminate|].
  destruct (str_in a attribute_unit_keys).
  - destruct (str_lookup a data) eqn:Ea.
    + destruct (build_row h data); [discriminate|].
      intros _. destruct (IH eq_refl) as [k [Hk Hl]]. exists k. split; [right; exact Hk|exact Hl].
    + intros _. exists a. split; [left; reflexivity|exact Ea].
  - intro H. destruct (IH H) as [k [Hk Hl]]. exists k. split; [right; exact Hk|exact Hl].
Qed.

(** X18: One run of [log_to_csv] writes to the end of the file only: the old rows,
    then the default header when the file had no valid one, then (when
    [data] has every column of the header) one row whose [i]-th field is the
    value of the header's [i]-th column; when a column is missing from
    [data] ([KeyError]) no row is written. *)
Theorem log_to_csv_row_aligned (file : option (list row)) (data : list (string * string))
    (f' : list row) (ok : bool) :
  log_to_csv_file file data = (f', ok) ->
  exists h, (read_header file = Some h \/ (read_header file = None /\ h = attribute_unit_keys))
  /\ (ok = true ->
      exists r, f' = match file with Some f => f | None => [] end
                     ++ match read_header file with Some _ => [] | None => [attribute_unit_keys] end
                     ++ [r]
        /\ List.length r = List.length h
        /\ forall i k, nth_error h i = Some k -> nth_error r i = str_lookup k data)
  /\ (ok = false ->
      f' = match file with Some f => f | None => [] end
           ++ match read_header file with Some _ => [] | None => [attribute_unit_keys] end
      /\ exists k, In k h /\ str_lookup k data = None).
Proof.
  unfold log_to_csv_file. intro H.
  destruct (read_header file) as [h|] eqn:Eh.
  - exists h. split; [left; reflexivity|].
    destruct (build_row h data) as [r|] eqn:Eb; injection H as <- <-.
    + split; [|discriminate]. intros _. exists r. rewrite app_nil_l. split; [reflexivity|].
      exact (build_row_aligned h r data (read_header_valid _ _ Eh) Eb).
    + split; [discriminate|]. intros _. rewrite app_nil_r. split; [reflexivity|].
      exact (build_row_missing h data Eb).
  - exists attribute_unit_keys. split; [right; split; reflexivity|].
    destruct (build_row attribute_unit_keys data) as [r|] eqn:Eb; injection H as <- <-.
    + split; [|discriminate]. intros _. exists r. rewrite <- app_assoc. split; [reflexivity|].
      apply (build_row_aligned _ r data); [reflexivity|exact Eb].
    + split; [discriminate|]. intros _. split; [reflexivity|].
      exact (build_row_missing _ data Eb).
Qed.

Lemma log_to_csv_row_aligned_witness :
  exists f' ok,
    log_to_csv_file None [("Time", "2024-01-01T10:00:00"); ("Power", "5")]%string = (f', ok)
    /\ exists h, (read_header None = Some h \/ (read_header None = None /\ h = attribute_unit_keys))
    /\ (ok = true ->
        exists r, f' = [] ++ [attribute_unit_keys] ++ [r]
          /\ List.length r = List.length h
          /\ forall i k, nth_error h i = Some k ->
               nth_error r i = str_lookup k [("Time", "2024-01-01T10:00:00"); ("Power", "5")]%string)
    /\ (ok = false ->
        f' = [] ++ [attribute_unit_keys]
        /\ exists k, In k h /\ str_lookup k [("Time", "2024-01-01T10:00:00"); ("Power", "5")]%string
                              = None).
Proof.
  do 2 eexists. split; [reflexivity|].
  apply (log_to_csv_row_aligned None). reflexivity.
Defined.

(** X19: The header [log_to_csv] finds on its next run: the default header when
    the file was missing or empty; otherwise the same answer as before, since
    the first line is never rewritten.  In particular a file whose first line
    is not a valid header is never repaired: every run appends the default
    header again. *)
Theorem log_to_csv_header_after (file : option (list row)) (data : list (string * string)) :
  read_header (Some (fst (log_to_csv_file file data)))
  = match file with
    | None | Some [] => Some attribute_unit_keys
    | Some _ => read_header file
    end.
Proof.
  unfold log_to_csv_file.
  destruct (read_header file) as [h|] eqn:Eh.
  - destruct file as [[|l f]|]; try discriminate.
    destruct (build_row h data); exact Eh.
  - destruct file as [[|l f]|].
    + destruct (build_row attribute_unit_keys data); reflexivity.
    + destruct (build_row attribute_unit_keys data); exact Eh.
    + destruct (build_row attribute_unit_keys data); reflexivity.
Qed.

(* ------------------------------------------------------------------------- *)
(** ** The pass loop of [main] *)

(** X20: For an [interval] greater than one that divides 60, [main] runs its
    passes at [interval], [2 * interval], ..., 60 seconds: [61 % interval] is
    1, so the [range] stops just after 60, and only the last pass
    ([i = 60]) skips the sleep of [if i < 60]. *)
Theorem main_passes_divisor (d : Z) :
  1 < d -> 60 mod d = 0 ->
  main_passes d = map (fun i => d * Z.of_nat i) (seq 1 (Z.to_nat (60 / d))).
Proof.
  intros Hd Hm. unfold main_passes, py_range.
  assert (E61 : 61 mod d = 1).
  { replace 61 with (60 + 1) by reflexivity. rewrite Z.add_mod, Hm by lia.
    rewrite (Z.mod_small 1 d) by lia. rewrite Z.mod_small; lia. }
  rewrite E61. replace (60 + 1 - d + d - 1) with 60 by lia.
  rewrite <- seq_shift, map_map. apply map_ext. intro i. lia.
Qed.

Lemma main_passes_divisor_witness :
  main_passes 10 = map (fun i => 10 * Z.of_nat i) (seq 1 (Z.to_nat (60 / 10))).
Proof.
  apply main_passes_divisor; reflexivity.
Defined.

(* ------------------------------------------------------------------------- *)
(** ** When [check_status] raises *)





